(** * CompraCoche: the cost calculator of [App.tsx]

    A shallow embedding of the calculation performed by the [App]
    component (route presets, form validation, annual distances, fuel
    cost per powertrain, amortisation against the gasoline car, ranking)
    and of the two event handlers that drive it.

    JavaScript numbers are IEEE 754 binary64 values; they are modelled by
    Rocq's primitive floats, whose [+], [-], [*], [/] and comparisons are
    the same IEEE operations (round to nearest, ties to even; every
    comparison with NaN is false). *)

From Stdlib Require Import Floats ZArith List Bool String Lia Permutation.
Import ListNotations.

Set Warnings "-inexact-float".
Local Open Scope float_scope.

(** ** JavaScript values that occur in the calculation *)

(** A property read [obj[key]] gives the stored number, or [undefined]
    when the object has no such key; [undefined] is [None]. An arithmetic
    operator applies ToNumber to its operands, and ToNumber(undefined) is
    NaN. *)
Definition ToNumber (v : option float) : float :=
  match v with
  | Some x => x
  | None => nan
  end.

(** ** types.ts *)

(** [FuelConsumptionData.fuelType]:
    'gasolina' | 'diesel' | 'glp' | 'hibrido' | 'phev'. *)
Inductive FuelType : Set := gasolina | diesel | glp | hibrido | phev.

(** [FuelConsumptionData.type], the display name:
    'Gasolina' | 'Diésel' | 'GLP' | 'Híbrido (HEV)' |
    'Híbrido Enchufable (PHEV)'. *)
Inductive CarName : Set := Gasolina | Diesel | GLP | HEV | PHEV.

Definition FuelType_eqb (a b : FuelType) : bool :=
  match a, b with
  | gasolina, gasolina | diesel, diesel | glp, glp
  | hibrido, hibrido | phev, phev => true
  | _, _ => false
  end.

Definition CarName_eqb (a b : CarName) : bool :=
  match a, b with
  | Gasolina, Gasolina | Diesel, Diesel | GLP, GLP
  | HEV, HEV | PHEV, PHEV => true
  | _, _ => false
  end.

Record UserInput : Set := mkUserInput {
  weekdayCommuteKm : float;
  weekendTripKm : float;
  estimatedAnnualKm : float;
  priceGasoline : float;
  priceDiesel : float;
  priceLPG : float;
  priceElectricity : float;
  purchaseGasoline : float;
  purchaseDiesel : float;
  purchaseLPG : float;
  purchaseHEV : float;
  purchasePHEV : float;
  years : float
}.

Record FuelConsumptionData : Set := mkFuelConsumptionData {
  type : CarName;
  fuelType : FuelType;
  cityConsumptionLiters : float;
  highwayConsumptionLiters : float;
  cityConsumptionKwh : float
}.

(** [CalculationResult]; the [icon] component is presentation only and
    is left out. [amortizationYears] is [number | null]. *)
Record CalculationResult : Set := mkCalculationResult {
  name : CarName;
  totalCost : float;
  annualFuelCost : float;
  amortizationYears : option float;
  purchasePrice : float;
  annualKm : float
}.

(** ** Route presets *)

Inductive RoutePreset : Set := urban | mixed | highway.

(** An entry of [presetConfig]; [label] and [description] are display
    texts and are left out. The fields are [city] and [highway] in the
    source. *)
Record PresetEntry : Set := mkPresetEntry {
  preset_city : float;
  preset_highway : float
}.

Definition presetConfig (p : RoutePreset) : PresetEntry :=
  match p with
  | urban => mkPresetEntry 0.8 0.2
  | mixed => mkPresetEntry 0.5 0.5
  | highway => mkPresetEntry 0.2 0.8
  end.

(** ** handleSubmit: the annual distances *)

(** The three variables [annualKm], [annualCityKm], [annualHighwayKm]
    assigned by the [if (userInput.estimatedAnnualKm > 0)] statement. *)
Record AnnualDistances : Set := mkAnnualDistances {
  ad_annualKm : float;
  annualCityKm : float;
  annualHighwayKm : float
}.

Definition annualDistances (userInput : UserInput) (routePreset : RoutePreset)
  : AnnualDistances :=
  let preset := presetConfig routePreset in
  if 0 <? estimatedAnnualKm userInput then
    let annualKm := estimatedAnnualKm userInput in
    mkAnnualDistances annualKm
      (annualKm * preset_city preset)
      (annualKm * preset_highway preset)
  else
    let weekdayCityKmPerTrip := weekdayCommuteKm userInput * preset_city preset in
    let weekdayHighwayKmPerTrip := weekdayCommuteKm userInput * preset_highway preset in
    let weekendCityKmTotal := weekendTripKm userInput * preset_city preset in
    let weekendHighwayKmTotal := weekendTripKm userInput * preset_highway preset in
    let annualCityKm := (weekdayCityKmPerTrip * 2 * 5 + weekendCityKmTotal) * 52 in
    let annualHighwayKm := (weekdayHighwayKmPerTrip * 2 * 5 + weekendHighwayKmTotal) * 52 in
    mkAnnualDistances (annualCityKm + annualHighwayKm) annualCityKm annualHighwayKm.

(** ** handleSubmit: the price tables *)

(** [purchasePrices] has a key for each of the five fuel types. *)
Definition purchasePrices (userInput : UserInput) (k : FuelType) : option float :=
  match k with
  | gasolina => Some (purchaseGasoline userInput)
  | diesel => Some (purchaseDiesel userInput)
  | glp => Some (purchaseLPG userInput)
  | hibrido => Some (purchaseHEV userInput)
  | phev => Some (purchasePHEV userInput)
  end.

(** [fuelPrices] has the three keys 'gasolina', 'diesel' and 'glp'. *)
Definition fuelPrices (userInput : UserInput) (k : FuelType) : option float :=
  match k with
  | gasolina => Some (priceGasoline userInput)
  | diesel => Some (priceDiesel userInput)
  | glp => Some (priceLPG userInput)
  | hibrido | phev => None
  end.

(** ** handleSubmit: one result per consumption record *)

(** The [let annualFuelCost] of the callback of [consumptionData.map]. *)
Definition carAnnualFuelCost (userInput : UserInput) (d : AnnualDistances)
    (car : FuelConsumptionData) : float :=
  if FuelType_eqb (fuelType car) phev then
    let cityCost := (annualCityKm d / 100) * cityConsumptionKwh car * priceElectricity userInput in
    let cityFuelCost := (annualCityKm d / 100) * cityConsumptionLiters car * priceGasoline userInput in
    let highwayCost := (annualHighwayKm d / 100) * highwayConsumptionLiters car * priceGasoline userInput in
    cityCost + cityFuelCost + highwayCost
  else
    let cityCost := (annualCityKm d / 100) * cityConsumptionLiters car
                    * ToNumber (fuelPrices userInput (fuelType car)) in
    let highwayCost := (annualHighwayKm d / 100) * highwayConsumptionLiters car
                       * ToNumber (fuelPrices userInput (fuelType car)) in
    cityCost + highwayCost.

(** The callback of [consumptionData.map]. *)
Definition calculateCar (userInput : UserInput) (d : AnnualDistances)
    (car : FuelConsumptionData) : CalculationResult :=
  let annualFuelCost := carAnnualFuelCost userInput d car in
  let purchasePrice := ToNumber (purchasePrices userInput (fuelType car)) in
  let totalCost := purchasePrice + (annualFuelCost * years userInput) in
  mkCalculationResult (type car) totalCost annualFuelCost None purchasePrice
    (ad_annualKm d).

Definition calculatedResults (userInput : UserInput) (routePreset : RoutePreset)
    (consumptionData : list FuelConsumptionData) : list CalculationResult :=
  map (calculateCar userInput (annualDistances userInput routePreset))
      consumptionData.

(** ** handleSubmit: amortisation against the gasoline car *)

(** [calculatedResults.find(r => r.name === 'Gasolina')]: the first
    result named 'Gasolina', or [undefined]. *)
Definition gasolineCar (rs : list CalculationResult) : option CalculationResult :=
  find (fun r => CarName_eqb (name r) Gasolina) rs.

Definition set_amortizationYears (v : option float) (r : CalculationResult)
  : CalculationResult :=
  mkCalculationResult (name r) (totalCost r) (annualFuelCost r) v
    (purchasePrice r) (annualKm r).

(** The callback of [calculatedResults.forEach]. It assigns
    [result.amortizationYears] in place; it reads only [name],
    [purchasePrice] and [annualFuelCost], which are never assigned, and
    it never assigns to a result named 'Gasolina', so the object
    [gasolineCar] it reads is the same before and after every
    assignment. *)
Definition amortize (gasolineCar result : CalculationResult) : CalculationResult :=
  if negb (CarName_eqb (name result) Gasolina)
     && (purchasePrice gasolineCar <? purchasePrice result) then
    let annualSavings := annualFuelCost gasolineCar - annualFuelCost result in
    if 0 <? annualSavings then
      set_amortizationYears
        (Some ((purchasePrice result - purchasePrice gasolineCar) / annualSavings))
        result
    else result
  else result.

Definition amortizedResults (rs : list CalculationResult) : list CalculationResult :=
  match gasolineCar rs with
  | Some g => map (amortize g) rs
  | None => rs
  end.

(** ** handleSubmit: ranking *)

(** The comparator [(a, b) => a.totalCost - b.totalCost]. *)
Definition compareFn (a b : CalculationResult) : float :=
  totalCost a - totalCost b.

(** [Array.prototype.sort] with a comparator. The language specification
    asks for a stable sort and reads a comparator result that is NaN as
    +0; an element goes after another exactly when the comparator is
    positive. With a comparator that is not a consistent order the
    resulting order depends on the engine; this is the stable insertion
    order. *)
Fixpoint sort_insert (x : CalculationResult) (l : list CalculationResult)
  : list CalculationResult :=
  match l with
  | [] => [x]
  | y :: l' => if 0 <? compareFn x y then y :: sort_insert x l' else x :: l
  end.

Definition sort (l : list CalculationResult) : list CalculationResult :=
  fold_right sort_insert [] l.

Definition sortedResults (userInput : UserInput) (routePreset : RoutePreset)
    (consumptionData : list FuelConsumptionData) : list CalculationResult :=
  sort (amortizedResults (calculatedResults userInput routePreset consumptionData)).

(** ** Math.round *)

Definition Z2float (q : Z) : float :=
  SF2Prim (binary_normalize prec emax q 0 false).

(** [Math.round]: the integral number closest to [x], the one nearer to
    +infinity on a tie; NaN, the infinities and the zeros are returned
    as they are, and a result of zero keeps the sign of [x]. A finite
    [x] is [(-1)^s * m * 2^e]; with [e >= 0] it is integral already. *)
Definition Math_round (x : float) : float :=
  match Prim2SF x with
  | S754_finite s m e =>
      if (0 <=? e)%Z then x
      else
        let n := if s then Z.neg m else Z.pos m in
        let q := ((2 * n + 2 ^ (- e)) / (2 * 2 ^ (- e)))%Z in
        if (q =? 0)%Z then (if s then neg_zero else zero) else Z2float q
  | _ => x
  end.

(** ** Form validation *)

(** [keyof UserInput]. *)
Module Key.
Inductive t : Set :=
| weekdayCommuteKm | weekendTripKm | estimatedAnnualKm
| priceGasoline | priceDiesel | priceLPG | priceElectricity
| purchaseGasoline | purchaseDiesel | purchaseLPG | purchaseHEV | purchasePHEV
| years.

Definition eqb (a b : t) : bool :=
  match a, b with
  | weekdayCommuteKm, weekdayCommuteKm | weekendTripKm, weekendTripKm
  | estimatedAnnualKm, estimatedAnnualKm
  | priceGasoline, priceGasoline | priceDiesel, priceDiesel
  | priceLPG, priceLPG | priceElectricity, priceElectricity
  | purchaseGasoline, purchaseGasoline | purchaseDiesel, purchaseDiesel
  | purchaseLPG, purchaseLPG | purchaseHEV, purchaseHEV
  | purchasePHEV, purchasePHEV | years, years => true
  | _, _ => false
  end.
End Key.

(** [userInput[field]]. *)
Definition getField (userInput : UserInput) (field : Key.t) : float :=
  match field with
  | Key.weekdayCommuteKm => weekdayCommuteKm userInput
  | Key.weekendTripKm => weekendTripKm userInput
  | Key.estimatedAnnualKm => estimatedAnnualKm userInput
  | Key.priceGasoline => priceGasoline userInput
  | Key.priceDiesel => priceDiesel userInput
  | Key.priceLPG => priceLPG userInput
  | Key.priceElectricity => priceElectricity userInput
  | Key.purchaseGasoline => purchaseGasoline userInput
  | Key.purchaseDiesel => purchaseDiesel userInput
  | Key.purchaseLPG => purchaseLPG userInput
  | Key.purchaseHEV => purchaseHEV userInput
  | Key.purchasePHEV => purchasePHEV userInput
  | Key.years => years userInput
  end.

(** [Partial<Record<keyof UserInput, string>>]: an object as the list of
    its own properties, in insertion order. *)
Definition FormErrors : Set := list (Key.t * string).

Fixpoint lookupError (k : Key.t) (errors : FormErrors) : option string :=
  match errors with
  | [] => None
  | (k', msg) :: rest => if Key.eqb k k' then Some msg else lookupError k rest
  end.

(** [errors[field] = msg]: replaces the value of an existing property,
    appends a new one otherwise. *)
Fixpoint assignError (k : Key.t) (msg : string) (errors : FormErrors) : FormErrors :=
  match errors with
  | [] => [(k, msg)]
  | (k', msg') :: rest =>
      if Key.eqb k k' then (k', msg) :: rest
      else (k', msg') :: assignError k msg rest
  end.

Definition positiveFields : list Key.t :=
  [ Key.priceGasoline; Key.priceDiesel; Key.priceLPG; Key.priceElectricity;
    Key.purchaseGasoline; Key.purchaseDiesel; Key.purchaseLPG; Key.purchaseHEV;
    Key.purchasePHEV ].

Definition nonNegativeFields : list Key.t :=
  [ Key.weekdayCommuteKm; Key.weekendTripKm; Key.estimatedAnnualKm ].

(** The object [errors] at the end of [validateForm]. *)
Definition validateForm_errors (userInput : UserInput) : FormErrors :=
  let errors : FormErrors := [] in
  let errors :=
    fold_left (fun errors field =>
                 if getField userInput field <=? 0
                 then assignError field "Debe ser un valor positivo." errors
                 else errors)
              positiveFields errors in
  let errors :=
    fold_left (fun errors field =>
                 if getField userInput field <? 0
                 then assignError field "No puede ser un valor negativo." errors
                 else errors)
              nonNegativeFields errors in
  if years userInput <? 1
  then assignError Key.years "Debe ser al menos 1 año." errors
  else errors.

(** ** The component's state and its collaborators *)

(** The [useState] cells of [App] that the two handlers read or write
    ([chartData] is chart input only and is left out). *)
Record AppState : Set := mkAppState {
  st_userInput : UserInput;
  st_results : option (list CalculationResult);
  st_recommendation : option string;
  st_isLoading : bool;
  st_error : option string;
  st_formErrors : FormErrors;
  st_isCalculatingRoute : bool;
  st_routePreset : RoutePreset;
  st_homeAddress : string;
  st_workAddress : string
}.

Definition setUserInput (f : UserInput -> UserInput) (s : AppState) : AppState :=
  mkAppState (f (st_userInput s)) (st_results s) (st_recommendation s)
    (st_isLoading s) (st_error s) (st_formErrors s) (st_isCalculatingRoute s)
    (st_routePreset s) (st_homeAddress s) (st_workAddress s).

Definition setResults (v : option (list CalculationResult)) (s : AppState) : AppState :=
  mkAppState (st_userInput s) v (st_recommendation s)
    (st_isLoading s) (st_error s) (st_formErrors s) (st_isCalculatingRoute s)
    (st_routePreset s) (st_homeAddress s) (st_workAddress s).

Definition setRecommendation (v : option string) (s : AppState) : AppState :=
  mkAppState (st_userInput s) (st_results s) v
    (st_isLoading s) (st_error s) (st_formErrors s) (st_isCalculatingRoute s)
    (st_routePreset s) (st_homeAddress s) (st_workAddress s).

Definition setIsLoading (v : bool) (s : AppState) : AppState :=
  mkAppState (st_userInput s) (st_results s) (st_recommendation s)
    v (st_error s) (st_formErrors s) (st_isCalculatingRoute s)
    (st_routePreset s) (st_homeAddress s) (st_workAddress s).

Definition setError (v : option string) (s : AppState) : AppState :=
  mkAppState (st_userInput s) (st_results s) (st_recommendation s)
    (st_isLoading s) v (st_formErrors s) (st_isCalculatingRoute s)
    (st_routePreset s) (st_homeAddress s) (st_workAddress s).

Definition setFormErrors (v : FormErrors) (s : AppState) : AppState :=
  mkAppState (st_userInput s) (st_results s) (st_recommendation s)
    (st_isLoading s) (st_error s) v (st_isCalculatingRoute s)
    (st_routePreset s) (st_homeAddress s) (st_workAddress s).

Definition setIsCalculatingRoute (v : bool) (s : AppState) : AppState :=
  mkAppState (st_userInput s) (st_results s) (st_recommendation s)
    (st_isLoading s) (st_error s) (st_formErrors s) v
    (st_routePreset s) (st_homeAddress s) (st_workAddress s).

Definition setRoutePreset (v : RoutePreset) (s : AppState) : AppState :=
  mkAppState (st_userInput s) (st_results s) (st_recommendation s)
    (st_isLoading s) (st_error s) (st_formErrors s) (st_isCalculatingRoute s)
    v (st_homeAddress s) (st_workAddress s).

Definition set_weekdayCommuteKm (v : float) (u : UserInput) : UserInput :=
  mkUserInput v (weekendTripKm u) (estimatedAnnualKm u)
    (priceGasoline u) (priceDiesel u) (priceLPG u) (priceElectricity u)
    (purchaseGasoline u) (purchaseDiesel u) (purchaseLPG u) (purchaseHEV u)
    (purchasePHEV u) (years u).

(** What a [catch (err)] receives: an [Error] with its message, or any
    other thrown value. *)
Inductive Thrown : Set :=
| ErrorObject (message : string)
| OtherValue.

(** How an awaited promise settles. *)
Inductive Settled (A : Set) : Set :=
| Fulfilled (value : A)
| Rejected (reason : Thrown).
Arguments Fulfilled {A} value.
Arguments Rejected {A} reason.

(** [err instanceof Error ? err.message : fallback]. *)
Definition messageOf (err : Thrown) (fallback : string) : string :=
  match err with
  | ErrorObject message => message
  | OtherValue => fallback
  end.

(** The result of [getRouteDetails]. *)
Record RouteDetails : Set := mkRouteDetails {
  distance : float;
  cityPercentage : float
}.

(** The external services of geminiService.ts as the handlers see them:
    what each call settles to. *)
Record Services : Set := mkServices {
  getFuelConsumptionData : Settled (list FuelConsumptionData);
  getRouteDetails : string -> string -> Settled RouteDetails
}.

(** The calls a handler makes to the services, in order. *)
Inductive Call : Set :=
| CallFuelConsumptionData
| CallRouteDetails (homeAddress workAddress : string).

(** ** validateForm *)

(** [Object.keys(errors).length === 0]. *)
Definition noKeys (errors : FormErrors) : bool :=
  match errors with
  | [] => true
  | _ :: _ => false
  end.

Definition validateForm (s : AppState) : AppState * bool :=
  let errors := validateForm_errors (st_userInput s) in
  (setFormErrors errors s, noKeys errors).

(** ** handleSubmit *)

(** The handler from its start up to [setResults(sortedResults)], with
    the calls made to the services so far. The chart series and the
    narrative request that follow do not change [results]. When
    validation fails or the fetch is rejected the handler is followed to
    its end. *)
Definition handleSubmit (w : Services) (s : AppState) : AppState * list Call :=
  let (s, valid) := validateForm s in
  if negb valid then (s, [])
  else
    let s := setIsLoading true s in
    let s := setError None s in
    let s := setResults None s in
    let s := setRecommendation None s in
    match getFuelConsumptionData w with
    | Rejected err =>
        let s := setError (Some (messageOf err "Ocurrió un error inesperado."%string)) s in
        let s := setIsLoading false s in
        (s, [CallFuelConsumptionData])
    | Fulfilled consumptionData =>
        let sortedResults :=
          sortedResults (st_userInput s) (st_routePreset s) consumptionData in
        (setResults (Some sortedResults) s, [CallFuelConsumptionData])
    end.

(** [const bestResult = results ? results[0] : null]; [results[0]] of an
    empty array is [undefined], which the rendering treats like [null]. *)
Definition bestResult (s : AppState) : option CalculationResult :=
  match st_results s with
  | Some (r :: _) => Some r
  | _ => None
  end.

(** ** handleRouteCalculation *)

(** [!address]: the empty string is the only falsy string. *)
Definition isEmpty (address : string) : bool :=
  match address with
  | EmptyString => true
  | String _ _ => false
  end.

Definition handleRouteCalculation (w : Services) (s : AppState)
  : AppState * list Call :=
  if isEmpty (st_homeAddress s) || isEmpty (st_workAddress s) then
    (setError (Some "Por favor, introduce la dirección de casa y del trabajo."%string) s, [])
  else
    let s := setIsCalculatingRoute true s in
    let s := setError None s in
    let call := CallRouteDetails (st_homeAddress s) (st_workAddress s) in
    match getRouteDetails w (st_homeAddress s) (st_workAddress s) with
    | Fulfilled r =>
        let s := setUserInput (set_weekdayCommuteKm (Math_round (distance r))) s in
        let s :=
          if 70 <=? cityPercentage r then setRoutePreset urban s
          else if cityPercentage r <=? 30 then setRoutePreset highway s
          else setRoutePreset mixed s in
        (setIsCalculatingRoute false s, [call])
    | Rejected err =>
        let s := setError (Some (messageOf err
                   "Ocurrió un error inesperado al calcular la ruta."%string)) s in
        (setIsCalculatingRoute false s, [call])
    end.

(** ** The initial form and a typical answer of the consumption service *)

(** The initial value of [userInput]. *)
Definition initialUserInput : UserInput :=
  mkUserInput 25 150 0 1.6 1.5 0.9 0.2 25000 27000 26000 30000 35000 7.

(** The initial state of [App]. *)
Definition initialState : AppState :=
  mkAppState initialUserInput None None false None [] false mixed
    EmptyString EmptyString.

Definition gasolineRecord : FuelConsumptionData :=
  mkFuelConsumptionData Gasolina gasolina 7 5.5 0.
Definition dieselRecord : FuelConsumptionData :=
  mkFuelConsumptionData Diesel diesel 5.8 4.5 0.
Definition lpgRecord : FuelConsumptionData :=
  mkFuelConsumptionData GLP glp 9 7 0.
Definition hybridRecord : FuelConsumptionData :=
  mkFuelConsumptionData HEV hibrido 4.5 5 0.
Definition phevRecord : FuelConsumptionData :=
  mkFuelConsumptionData PHEV phev 1.5 5 15.

(** One record per vehicle type, in the order the prompt of
    [getFuelConsumptionData] lists them. *)
Definition sampleConsumptionData : list FuelConsumptionData :=
  [gasolineRecord; dieselRecord; lpgRecord; hybridRecord; phevRecord].

(** ** handleInputChange *)

(** ToBoolean of a number: false for the zeros and NaN. *)
Definition truthy (x : float) : bool := negb (x =? 0) && negb (is_nan x).

(** [x || d] on numbers. *)
Definition orElse (x d : float) : float := if truthy x then x else d.

(** [{ ...prev, [name]: v }] for a name that is a key of [UserInput]. *)
Definition setField (prev : UserInput) (k : Key.t) (v : float) : UserInput :=
  match k with
  | Key.weekdayCommuteKm =>
      mkUserInput v (weekendTripKm prev) (estimatedAnnualKm prev)
        (priceGasoline prev) (priceDiesel prev) (priceLPG prev) (priceElectricity prev)
        (purchaseGasoline prev) (purchaseDiesel prev) (purchaseLPG prev)
        (purchaseHEV prev) (purchasePHEV prev) (years prev)
  | Key.weekendTripKm =>
      mkUserInput (weekdayCommuteKm prev) v (estimatedAnnualKm prev)
        (priceGasoline prev) (priceDiesel prev) (priceLPG prev) (priceElectricity prev)
        (purchaseGasoline prev) (purchaseDiesel prev) (purchaseLPG prev)
        (purchaseHEV prev) (purchasePHEV prev) (years prev)
  | Key.estimatedAnnualKm =>
      mkUserInput (weekdayCommuteKm prev) (weekendTripKm prev) v
        (priceGasoline prev) (priceDiesel prev) (priceLPG prev) (priceElectricity prev)
        (purchaseGasoline prev) (purchaseDiesel prev) (purchaseLPG prev)
        (purchaseHEV prev) (purchasePHEV prev) (years prev)
  | Key.priceGasoline =>
      mkUserInput (weekdayCommuteKm prev) (weekendTripKm prev) (estimatedAnnualKm prev)
        v (priceDiesel prev) (priceLPG prev) (priceElectricity prev)
        (purchaseGasoline prev) (purchaseDiesel prev) (purchaseLPG prev)
        (purchaseHEV prev) (purchasePHEV prev) (years prev)
  | Key.priceDiesel =>
      mkUserInput (weekdayCommuteKm prev) (weekendTripKm prev) (estimatedAnnualKm prev)
        (priceGasoline prev) v (priceLPG prev) (priceElectricity prev)
        (purchaseGasoline prev) (purchaseDiesel prev) (purchaseLPG prev)
        (purchaseHEV prev) (purchasePHEV prev) (years prev)
  | Key.priceLPG =>
      mkUserInput (weekdayCommuteKm prev) (weekendTripKm prev) (estimatedAnnualKm prev)
        (priceGasoline prev) (priceDiesel prev) v (priceElectricity prev)
        (purchaseGasoline prev) (purchaseDiesel prev) (purchaseLPG prev)
        (purchaseHEV prev) (purchasePHEV prev) (years prev)
  | Key.priceElectricity =>
      mkUserInput (weekdayCommuteKm prev) (weekendTripKm prev) (estimatedAnnualKm prev)
        (priceGasoline prev) (priceDiesel prev) (priceLPG prev) v
        (purchaseGasoline prev) (purchaseDiesel prev) (purchaseLPG prev)
        (purchaseHEV prev) (purchasePHEV prev) (years prev)
  | Key.purchaseGasoline =>
      mkUserInput (weekdayCommuteKm prev) (weekendTripKm prev) (estimatedAnnualKm prev)
        (priceGasoline prev) (priceDiesel prev) (priceLPG prev) (priceElectricity prev)
        v (purchaseDiesel prev) (purchaseLPG prev)
        (purchaseHEV prev) (purchasePHEV prev) (years prev)
  | Key.purchaseDiesel =>
      mkUserInput (weekdayCommuteKm prev) (weekendTripKm prev) (estimatedAnnualKm prev)
        (priceGasoline prev) (priceDiesel prev) (priceLPG prev) (priceElectricity prev)
        (purchaseGasoline prev) v (purchaseLPG prev)
        (purchaseHEV prev) (purchasePHEV prev) (years prev)
  | Key.purchaseLPG =>
      mkUserInput (weekdayCommuteKm prev) (weekendTripKm prev) (estimatedAnnualKm prev)
        (priceGasoline prev) (priceDiesel prev) (priceLPG prev) (priceElectricity prev)
        (purchaseGasoline prev) (purchaseDiesel prev) v
        (purchaseHEV prev) (purchasePHEV prev) (years prev)
  | Key.purchaseHEV =>
      mkUserInput (weekdayCommuteKm prev) (weekendTripKm prev) (estimatedAnnualKm prev)
        (priceGasoline prev) (priceDiesel prev) (priceLPG prev) (priceElectricity prev)
        (purchaseGasoline prev) (purchaseDiesel prev) (purchaseLPG prev)
        v (purchasePHEV prev) (years prev)
  | Key.purchasePHEV =>
      mkUserInput (weekdayCommuteKm prev) (weekendTripKm prev) (estimatedAnnualKm prev)
        (priceGasoline prev) (priceDiesel prev) (priceLPG prev) (priceElectricity prev)
        (purchaseGasoline prev) (purchaseDiesel prev) (purchaseLPG prev)
        (purchaseHEV prev) v (years prev)
  | Key.years =>
      mkUserInput (weekdayCommuteKm prev) (weekendTripKm prev) (estimatedAnnualKm prev)
        (priceGasoline prev) (priceDiesel prev) (priceLPG prev) (priceElectricity prev)
        (purchaseGasoline prev) (purchaseDiesel prev) (purchaseLPG prev)
        (purchaseHEV prev) (purchasePHEV prev) v
  end.

(** [delete newErrors[name]]: the property is removed. *)
Fixpoint deleteError (k : Key.t) (errors : FormErrors) : FormErrors :=
  match errors with
  | [] => []
  | (k', msg) :: rest =>
      if Key.eqb k k' then deleteError k rest
      else (k', msg) :: deleteError k rest
  end.

Definition setHomeAddress (v : string) (s : AppState) : AppState :=
  mkAppState (st_userInput s) (st_results s) (st_recommendation s)
    (st_isLoading s) (st_error s) (st_formErrors s) (st_isCalculatingRoute s)
    (st_routePreset s) v (st_workAddress s).

Definition setWorkAddress (v : string) (s : AppState) : AppState :=
  mkAppState (st_userInput s) (st_results s) (st_recommendation s)
    (st_isLoading s) (st_error s) (st_formErrors s) (st_isCalculatingRoute s)
    (st_routePreset s) (st_homeAddress s) v.

(** The [name] of the input that changed: one of the two address
    inputs, or an input named after a key of [UserInput]. *)
Inductive InputName : Set :=
| NameHomeAddress
| NameWorkAddress
| NameField (k : Key.t).

(** [e.target]. Its [type] is not a field of its own: the two address
    inputs are rendered with type 'text' and every input named after a
    key of [UserInput] with the default type 'number', so
    [type === 'number'] holds exactly for the latter. *)
Record ChangeEvent : Set := mkChangeEvent {
  target_name : InputName;
  target_value : string
}.

(** [handleInputChange]; the builtin [parseFloat] is a parameter.
    [formErrors] only ever holds keys of [UserInput], so
    [formErrors[name]] is [undefined] for the address inputs; a message
    is truthy when it is not the empty string. *)
Definition handleInputChange (parseFloat : string -> float)
    (e : ChangeEvent) (s : AppState) : AppState :=
  let s :=
    match target_name e with
    | NameField k =>
        match lookupError k (st_formErrors s) with
        | Some msg =>
            if isEmpty msg then s
            else setFormErrors (deleteError k (st_formErrors s)) s
        | None => s
        end
    | _ => s
    end in
  match target_name e with
  | NameHomeAddress => setHomeAddress (target_value e) s
  | NameWorkAddress => setWorkAddress (target_value e) s
  | NameField k =>
      setUserInput
        (fun prev => setField prev k (orElse (parseFloat (target_value e)) 0)) s
  end.

(** ** getRecommendation *)

(** [results.reduce((prev, current) =>
       (prev.totalCost < current.totalCost) ? prev : current)]:
    without an initial value the first element starts the reduction,
    and an empty array makes [reduce] throw a TypeError ([None]). *)
Definition bestOption (results : list CalculationResult)
  : option CalculationResult :=
  match results with
  | [] => None
  | first :: rest =>
      Some (fold_left
              (fun prev current =>
                 if totalCost prev <? totalCost current then prev else current)
              rest first)
  end.

(** ** Notions the statements use *)

(** The gasoline car of the results comes from the first record whose
    display name is 'Gasolina'. *)
Definition gasolineRecordOf (data : list FuelConsumptionData)
  : option FuelConsumptionData :=
  find (fun car => CarName_eqb (type car) Gasolina) data.

(** The form with another explicit annual total, as typing into the
    field 'estimatedAnnualKm' leaves it. *)
Definition set_estimatedAnnualKm (v : float) (u : UserInput) : UserInput :=
  mkUserInput (weekdayCommuteKm u) (weekendTripKm u) v
    (priceGasoline u) (priceDiesel u) (priceLPG u) (priceElectricity u)
    (purchaseGasoline u) (purchaseDiesel u) (purchaseLPG u) (purchaseHEV u)
    (purchasePHEV u) (years u).

(** Non-decreasing by total cost: each result costs at most the next. *)
Fixpoint sortedByTotalCost (l : list CalculationResult) : bool :=
  match l with
  | a :: rest =>
      match rest with
      | b :: _ => (totalCost a <=? totalCost b) && sortedByTotalCost rest
      | [] => true
      end
  | [] => true
  end.

(** The error conditions in the words of the error taxonomy: a fuel,
    electricity or purchase price that is not positive, a distance that
    is negative, a horizon below one year. *)
Definition inError (u : UserInput) (k : Key.t) : bool :=
  match k with
  | Key.priceGasoline | Key.priceDiesel | Key.priceLPG | Key.priceElectricity
  | Key.purchaseGasoline | Key.purchaseDiesel | Key.purchaseLPG
  | Key.purchaseHEV | Key.purchasePHEV => getField u k <=? 0
  | Key.weekdayCommuteKm | Key.weekendTripKm | Key.estimatedAnnualKm =>
      getField u k <? 0
  | Key.years => getField u k <? 1
  end.

(** Whether a number is an integer: a zero, or a finite
    [(-1)^s * m * 2^e] in which [2^(-e)] divides [m] when [e] is
    negative. *)
Definition Number_isInteger (x : float) : bool :=
  match Prim2SF x with
  | S754_zero _ => true
  | S754_finite _ m e => (0 <=? e)%Z || (Z.pos m mod 2 ^ (- e) =? 0)%Z
  | _ => false
  end.

Definition set_years (v : float) (u : UserInput) : UserInput :=
  mkUserInput (weekdayCommuteKm u) (weekendTripKm u) (estimatedAnnualKm u)
    (priceGasoline u) (priceDiesel u) (priceLPG u) (priceElectricity u)
    (purchaseGasoline u) (purchaseDiesel u) (purchaseLPG u) (purchaseHEV u)
    (purchasePHEV u) v.

(** ** The inputs of the form and its submission *)

(** The [step] an input is rendered with: [InputField] takes [step = 1]
    unless the prop is given, which it is for the four prices (0.01)
    and the five purchase prices (500). *)
Inductive InputStep : Set := StepOne | StepHundredth | StepFiveHundred.

Definition inputStep (k : Key.t) : InputStep :=
  match k with
  | Key.priceGasoline | Key.priceDiesel | Key.priceLPG | Key.priceElectricity =>
      StepHundredth
  | Key.purchaseGasoline | Key.purchaseDiesel | Key.purchaseLPG
  | Key.purchaseHEV | Key.purchasePHEV => StepFiveHundred
  | Key.weekdayCommuteKm | Key.weekendTripKm | Key.estimatedAnnualKm
  | Key.years => StepOne
  end.

(** What the browser checks on an [<input type="number" min="0"
    step=...>] whose [value] prop is the number [v] of the form state.
    A number that is finite is what the input holds: it must not be
    below [min] and must be a whole number of steps above [min]. NaN
    and the infinities are no valid floating-point numbers: the input
    is left empty, and an empty input that is not required violates
    nothing. Of the steps only 1 is checked here; the decimal steps
    0.01 and 500 are let through, which admits more forms than the
    browser does, never fewer. *)
Definition inputValid (u : UserInput) (k : Key.t) : bool :=
  let v := getField u k in
  if is_finite v then
    (0 <=? v)
    && match inputStep k with
       | StepOne => Number_isInteger v
       | StepHundredth | StepFiveHundred => true
       end
  else true.

(** The inputs named after the keys of [UserInput], as the form lists
    them; the two address inputs are of type 'text' and carry no
    constraint. *)
Definition numberInputs : list Key.t :=
  [ Key.weekdayCommuteKm; Key.weekendTripKm; Key.estimatedAnnualKm;
    Key.years;
    Key.priceGasoline; Key.priceDiesel; Key.priceLPG; Key.priceElectricity;
    Key.purchaseGasoline; Key.purchaseDiesel; Key.purchaseLPG; Key.purchaseHEV;
    Key.purchasePHEV ].

(** Constraint validation of [<form onSubmit={handleSubmit}>], which has
    no [noValidate]. *)
Definition constraintValidation (u : UserInput) : bool :=
  forallb (inputValid u) numberInputs.

(** A click on the submit button: the browser validates the inputs and
    only then dispatches the submit event, whose listener is
    [handleSubmit]; otherwise nothing of the component runs. *)
Definition submitForm (w : Services) (s : AppState) : AppState * list Call :=
  if constraintValidation (st_userInput s) then handleSubmit w s else (s, []).

(** A finite or infinite number of sign [sx] (what rounding a positive
    integer mantissa at an exponent no smaller than -1074 gives: never a
    zero). *)
Definition signed (sx : bool) (r : spec_float) : Prop :=
  match r with
  | S754_finite s _ _ | S754_infinity s => s = sx
  | _ => False
  end.

(** Every field of the form is a number other than NaN. *)
Definition allNumbers (u : UserInput) : Prop :=
  forall k, getField u k <> nan.

(** The message of each kind of field. *)
Definition messageFor (k : Key.t) : string :=
  match k with
  | Key.priceGasoline | Key.priceDiesel | Key.priceLPG | Key.priceElectricity
  | Key.purchaseGasoline | Key.purchaseDiesel | Key.purchaseLPG
  | Key.purchaseHEV | Key.purchasePHEV => "Debe ser un valor positivo."
  | Key.weekdayCommuteKm | Key.weekendTripKm | Key.estimatedAnnualKm =>
      "No puede ser un valor negativo."
  | Key.years => "Debe ser al menos 1 año."
  end.

(** The callback of the reduction in [getRecommendation], by name. *)
Definition pick (prev current : CalculationResult) : CalculationResult :=
  if totalCost prev <? totalCost current then prev else current.

(** The order of two finite numbers of the same sign: by exponent, then
    by mantissa. *)
Definition lexCompare (m1 : positive) (e1 : Z) (m2 : positive) (e2 : Z)
  : comparison :=
  match (e1 ?= e2)%Z with
  | Lt => Lt
  | Gt => Gt
  | Eq => Pos.compare_cont Eq m1 m2
  end.

(** * Properties *)

(** ** Comparison and arithmetic of binary64 numbers *)

Section Binary64.

Lemma Prim2SF_nan : Prim2SF nan = S754_nan.
Proof. reflexivity. Qed.

Lemma Prim2SF_nan_inv (x : float) : Prim2SF x = S754_nan -> x = nan.
Proof.
  intros H. rewrite <- (SF2Prim_Prim2SF x), H. reflexivity.
Qed.

Lemma SFcompare_nan_r (x : spec_float) : SFcompare x S754_nan = None.
Proof. destruct x; reflexivity. Qed.

Lemma SFcompare_antisym (x y : spec_float) :
  SFcompare y x = option_map CompOpp (SFcompare x y).
Proof.
  destruct x as [sx|sx| |sx mx ex], y as [sy|sy| |sy my ey]; simpl;
    try reflexivity;
    try (destruct sx; reflexivity);
    try (destruct sy; reflexivity);
    try (destruct sx, sy; reflexivity).
  destruct sx, sy; try reflexivity;
    rewrite (Z.compare_antisym ey ex);
    destruct (ey ?= ex)%Z; simpl; try reflexivity;
    rewrite (Pos.compare_cont_antisym mx my Eq); simpl;
    destruct (Pos.compare_cont Eq mx my); reflexivity.
Qed.

(** Every comparison with NaN is false. *)
Lemma leb_nan_l (x : float) : (nan <=? x) = false.
Proof. rewrite leb_spec, Prim2SF_nan. reflexivity. Qed.

Lemma leb_nan_r (x : float) : (x <=? nan) = false.
Proof.
  rewrite leb_spec, Prim2SF_nan. unfold SFleb.
  rewrite SFcompare_nan_r. reflexivity.
Qed.

Lemma ltb_nan_l (x : float) : (nan <? x) = false.
Proof. rewrite ltb_spec, Prim2SF_nan. reflexivity. Qed.

Lemma ltb_nan_r (x : float) : (x <? nan) = false.
Proof.
  rewrite ltb_spec, Prim2SF_nan. unfold SFltb.
  rewrite SFcompare_nan_r. reflexivity.
Qed.

Lemma SFcompare_None (x y : spec_float) :
  SFcompare x y = None -> x = S754_nan \/ y = S754_nan.
Proof.
  destruct x as [sx|sx| |sx mx ex], y as [sy|sy| |sy my ey]; simpl;
    intros H; try discriminate H; auto.
Qed.

(** Two numbers other than NaN are comparable. *)
Lemma not_ltb_leb (x y : float) :
  x <> nan -> y <> nan -> (x <? y) = false -> (y <=? x) = true.
Proof.
  intros Hx Hy. rewrite ltb_spec, leb_spec. unfold SFltb, SFleb.
  rewrite (SFcompare_antisym (Prim2SF x) (Prim2SF y)).
  destruct (SFcompare (Prim2SF x) (Prim2SF y)) as [[ | | ]|] eqn:E;
    simpl; try congruence.
  intros _. exfalso.
  destruct (SFcompare_None _ _ E) as [H|H];
    [apply Hx | apply Hy]; apply Prim2SF_nan_inv, H.
Qed.

Lemma leb_not_ltb (x y : float) : (x <=? y) = true -> (y <? x) = false.
Proof.
  rewrite ltb_spec, leb_spec. unfold SFltb, SFleb.
  rewrite (SFcompare_antisym (Prim2SF x) (Prim2SF y)).
  destruct (SFcompare (Prim2SF x) (Prim2SF y)) as [[ | | ]|]; simpl; congruence.
Qed.

(** NaN is absorbing for the arithmetic operations. *)
Lemma mul_nan_r (x : float) : x * nan = nan.
Proof.
  apply Prim2SF_inj. rewrite mul_spec, Prim2SF_nan.
  destruct (Prim2SF x); reflexivity.
Qed.

Lemma mul_nan_l (x : float) : nan * x = nan.
Proof.
  apply Prim2SF_inj. rewrite mul_spec, Prim2SF_nan. reflexivity.
Qed.

Lemma add_nan_r (x : float) : x + nan = nan.
Proof.
  apply Prim2SF_inj. rewrite add_spec, Prim2SF_nan.
  destruct (Prim2SF x); reflexivity.
Qed.

Lemma add_nan_l (x : float) : nan + x = nan.
Proof.
  apply Prim2SF_inj. rewrite add_spec, Prim2SF_nan. reflexivity.
Qed.

Lemma sub_nan_r (x : float) : x - nan = nan.
Proof.
  apply Prim2SF_inj. rewrite sub_spec, Prim2SF_nan.
  destruct (Prim2SF x); reflexivity.
Qed.

(** A number minus itself is never positive: it is a zero, or NaN for
    an infinity and for NaN. *)
Lemma sub_diag_not_pos (x : float) : (0 <? x - x) = false.
Proof.
  rewrite ltb_spec, sub_spec.
  destruct (Prim2SF x) as [s|s| |s m e]; try (destruct s; reflexivity);
    try reflexivity.
  unfold SF64sub, SFsub. rewrite Z.sub_diag. reflexivity.
Qed.

(** At most 30 excludes at least 70. *)
Lemma leb_30_not_70 (c : float) : (c <=? 30) = true -> (70 <=? c) = false.
Proof.
  rewrite !leb_spec. unfold SFleb.
  replace (Prim2SF 30) with (S754_finite false 8444249301319680 (-48))
    by reflexivity.
  replace (Prim2SF 70) with (S754_finite false 4925812092436480 (-46))
    by reflexivity.
  destruct (Prim2SF c) as [s|s| |s m e]; cbn [SFcompare];
    try (destruct s; first [intros _; reflexivity | intros H; discriminate H]);
    try (intros H; discriminate H).
  destruct s; [intros _; reflexivity|].
  destruct (Z.compare_spec e (-48)) as [He|He|He].
  - subst e. intros _. reflexivity.
  - intros _. replace (-46 ?= e)%Z with Gt; [reflexivity|].
    symmetry. apply Z.compare_gt_iff. lia.
  - intros H; discriminate H.
Qed.

End Binary64.

Section Binary64Subtraction.

Local Open Scope Z_scope.

(** The exponent function of binary64: 53 bits of precision, smallest
    exponent -1074. *)
Lemma fexp_eq (e : Z) : fexp prec emax e = Z.max (e - 53) (-1074).
Proof. reflexivity. Qed.

(** A mantissa of [d] binary digits lies in [2^(d-1), 2^d). *)
Lemma digits2_bounds (m : positive) :
  2 ^ (Z.pos (digits2_pos m) - 1) <= Z.pos m < 2 ^ Z.pos (digits2_pos m).
Proof.
  induction m as [m IH|m IH|]; cbn [digits2_pos].
  - rewrite Pos2Z.inj_succ, (Pos2Z.inj_xI m).
    replace (Z.succ (Z.pos (digits2_pos m)) - 1) with (Z.succ (Z.pos (digits2_pos m) - 1)) by lia.
    rewrite !Z.pow_succ_r by lia. lia.
  - rewrite Pos2Z.inj_succ, (Pos2Z.inj_xO m).
    replace (Z.succ (Z.pos (digits2_pos m)) - 1) with (Z.succ (Z.pos (digits2_pos m) - 1)) by lia.
    rewrite !Z.pow_succ_r by lia. lia.
  - simpl. lia.
Qed.

(** A valid finite number has at most 53 mantissa digits, exactly 53
    above the smallest exponent. *)
Lemma bounded_facts (m : positive) (e : Z) :
  bounded prec emax m e = true ->
  -1074 <= e /\ Z.pos (digits2_pos m) <= 53 /\
  (-1074 < e -> Z.pos (digits2_pos m) = 53).
Proof.
  unfold bounded, canonical_mantissa. rewrite andb_true_iff, Z.eqb_eq, fexp_eq.
  lia.
Qed.

Lemma iter_xO (m d : positive) :
  Z.pos (Pos.iter xO m d) = Z.pos m * 2 ^ Z.pos d.
Proof.
  induction d as [|d IH] using Pos.peano_ind.
  - simpl. lia.
  - rewrite Pos.iter_succ, (Pos2Z.inj_xO (Pos.iter xO m d)), IH, Pos2Z.inj_succ,
      Z.pow_succ_r by lia.
    lia.
Qed.

Lemma shl_align_fst (m : positive) (e ez : Z) :
  ez <= e -> Z.pos (fst (shl_align m e ez)) = Z.pos m * 2 ^ (e - ez).
Proof.
  intros H. unfold shl_align. destruct (ez - e) as [|d|d] eqn:E.
  - replace (e - ez) with 0 by lia. simpl fst. lia.
  - lia.
  - simpl fst. rewrite iter_xO. f_equal. f_equal. lia.
Qed.

Lemma shl_align_snd (m : positive) (e ez : Z) :
  snd (shl_align m e ez) = e \/ snd (shl_align m e ez) = ez.
Proof.
  unfold shl_align. destruct (ez - e); simpl; auto.
Qed.

(** Shifting a mantissa right by [p] bits keeps it positive when it is
    at least [2^p]. *)
Lemma shr_1_lb (mrs : shr_record) (k : Z) :
  0 <= k -> 2 ^ (k + 1) <= shr_m mrs -> 2 ^ k <= shr_m (shr_1 mrs).
Proof.
  intros Hk. rewrite Z.add_1_r, Z.pow_succ_r by lia.
  assert (0 < 2 ^ k) by (apply Z.pow_pos_nonneg; lia).
  destruct mrs as [m r s]. cbn [shr_m shr_1].
  destruct m as [|[q|q|]|q]; cbn [shr_m]; lia.
Qed.

Lemma iter_shr_1_lb (p : positive) :
  forall (mrs : shr_record) (k : Z),
    0 <= k -> 2 ^ (k + Z.pos p) <= shr_m mrs ->
    2 ^ k <= shr_m (SpecFloat.iter_pos shr_1 p mrs).
Proof.
  induction p as [p IH|p IH|]; intros mrs k Hk H; cbn [SpecFloat.iter_pos].
  - apply IH; [lia|]. apply IH; [lia|]. apply shr_1_lb; [lia|].
    rewrite (Pos2Z.inj_xI p) in H.
    replace (k + Z.pos p + Z.pos p + 1) with (k + (2 * Z.pos p + 1)) by lia.
    exact H.
  - apply IH; [lia|]. apply IH; [lia|].
    rewrite (Pos2Z.inj_xO p) in H.
    replace (k + Z.pos p + Z.pos p) with (k + 2 * Z.pos p) by lia.
    exact H.
  - apply shr_1_lb; assumption.
Qed.

Lemma shr_m_of_loc (m : Z) (l : location) : shr_m (shr_record_of_loc m l) = m.
Proof. destruct l as [|[ | | ]]; reflexivity. Qed.

Lemma shr_fexp_pos (m e : Z) (l : location) :
  0 < m -> -1074 <= e ->
  0 < shr_m (fst (shr_fexp prec emax m e l)) /\
  -1074 <= snd (shr_fexp prec emax m e l).
Proof.
  intros Hm He. unfold shr_fexp, shr. rewrite fexp_eq.
  destruct m as [|q|q]; try lia. cbn [Zdigits2].
  pose proof (digits2_bounds q) as [Hlo _].
  destruct (Z.max (Z.pos (digits2_pos q) + e - 53) (-1074) - e) as [|n|n] eqn:E;
    cbn [fst snd]; rewrite ?shr_m_of_loc; try lia.
  split; [|lia].
  assert (2 ^ 0 <= shr_m (SpecFloat.iter_pos shr_1 n (shr_record_of_loc (Z.pos q) l))).
  { apply iter_shr_1_lb; [lia|]. rewrite shr_m_of_loc.
    apply Z.le_trans with (2 ^ (Z.pos (digits2_pos q) - 1)); [|exact Hlo].
    apply Z.pow_le_mono_r; lia. }
  simpl in H. lia.
Qed.

Lemma round_nearest_even_pos (m : Z) (l : location) :
  0 < m -> 0 < round_nearest_even m l.
Proof.
  intros H. destruct l as [|[ | | ]]; cbn [round_nearest_even]; try lia.
  destruct (Z.even m); lia.
Qed.

Lemma binary_round_aux_signed (sx : bool) (m e : Z) (l : location) :
  0 < m -> -1074 <= e -> signed sx (binary_round_aux prec emax sx m e l).
Proof.
  intros Hm He. unfold binary_round_aux.
  pose proof (shr_fexp_pos m e l Hm He) as [H1 H2].
  destruct (shr_fexp prec emax m e l) as [mrs' e']. cbn [fst snd] in H1, H2.
  pose proof (round_nearest_even_pos _ (loc_of_shr_record mrs') H1) as H3.
  pose proof (shr_fexp_pos _ e' loc_Exact H3 H2) as [H4 _].
  destruct (shr_fexp prec emax _ e' loc_Exact) as [mrs'' e'']. cbn [fst] in H4.
  destruct (shr_m mrs'') as [|q|q]; try lia.
  destruct (e'' <=? emax - prec); reflexivity.
Qed.

Lemma binary_round_signed (sx : bool) (m : positive) (e : Z) :
  -1074 <= e -> signed sx (binary_round prec emax sx m e).
Proof.
  intros He. unfold binary_round.
  pose proof (shl_align_snd m e (fexp prec emax (Z.pos (digits2_pos m) + e))) as Hs.
  destruct (shl_align m e _) as [mz ez]. cbn [snd] in Hs.
  apply binary_round_aux_signed; [lia|].
  destruct Hs as [->| ->]; [exact He|]. rewrite fexp_eq. lia.
Qed.

(** The normalised form of the integer [z] at exponent [e] is positive
    exactly when [z] is. *)
Lemma binary_normalize_ltb (z e : Z) :
  -1074 <= e ->
  SFltb (S754_zero false) (binary_normalize prec emax z e false) = (0 <? z).
Proof.
  intros He. destruct z as [|q|q]; cbn [binary_normalize].
  - reflexivity.
  - pose proof (binary_round_signed false q e He) as H.
    destruct (binary_round prec emax false q e) as [s|s| |s m' e'];
      cbn [signed] in H; try contradiction; subst s; reflexivity.
  - pose proof (binary_round_signed true q e He) as H.
    destruct (binary_round prec emax true q e) as [s|s| |s m' e'];
      cbn [signed] in H; try contradiction; subst s; reflexivity.
Qed.

(** Aligned mantissas of two valid numbers compare like the numbers. *)
Lemma aligned_compare (mx my : positive) (ex ey : Z) :
  bounded prec emax mx ex = true -> bounded prec emax my ey = true ->
  (Z.pos (fst (shl_align mx ex (Z.min ex ey)))
   ?= Z.pos (fst (shl_align my ey (Z.min ex ey))))
  = match ex ?= ey with
    | Lt => Lt
    | Gt => Gt
    | Eq => Pos.compare_cont Eq mx my
    end.
Proof.
  intros Hx Hy.
  apply bounded_facts in Hx. destruct Hx as [Hx1 [Hx2 Hx3]].
  apply bounded_facts in Hy. destruct Hy as [Hy1 [Hy2 Hy3]].
  rewrite !shl_align_fst by lia.
  pose proof (digits2_bounds mx) as [Lx Ux].
  pose proof (digits2_bounds my) as [Ly Uy].
  destruct (Z.compare_spec ex ey) as [E|E|E].
  - subst ey. rewrite Z.min_id, Z.sub_diag, !Z.mul_1_r. reflexivity.
  - rewrite Z.min_l, Z.sub_diag, Z.mul_1_r by lia.
    apply Z.compare_lt_iff.
    rewrite (Hy3 ltac:(lia)) in Ly. 
    assert (2 ^ 1 <= 2 ^ (ey - ex)) by (apply Z.pow_le_mono_r; lia).
    assert (Z.pos mx < 2 ^ 53).
    { apply Z.lt_le_trans with (2 ^ Z.pos (digits2_pos mx)); [exact Ux|].
      apply Z.pow_le_mono_r; lia. }
    change (2 ^ (53 - 1)) with 4503599627370496 in Ly.
    change (2 ^ 53) with 9007199254740992 in H0.
    change (2 ^ 1) with 2 in H. nia.
  - rewrite Z.min_r, Z.sub_diag, Z.mul_1_r by lia.
    apply Z.compare_gt_iff.
    rewrite (Hx3 ltac:(lia)) in Lx.
    assert (2 ^ 1 <= 2 ^ (ex - ey)) by (apply Z.pow_le_mono_r; lia).
    assert (Z.pos my < 2 ^ 53).
    { apply Z.lt_le_trans with (2 ^ Z.pos (digits2_pos my)); [exact Uy|].
      apply Z.pow_le_mono_r; lia. }
    change (2 ^ (53 - 1)) with 4503599627370496 in Lx.
    change (2 ^ 53) with 9007199254740992 in H0.
    change (2 ^ 1) with 2 in H. nia.
Qed.

(** There is no underflow in a subtraction: the difference of two
    numbers is positive exactly when the first is the greater. *)
Lemma SFsub_pos (x y : spec_float) :
  valid_binary x = true -> valid_binary y = true ->
  SFltb (S754_zero false) (SF64sub x y) = SFltb y x.
Proof.
  intros Hx Hy.
  destruct x as [sx|sx| |sx mx ex], y as [sy|sy| |sy my ey];
    try reflexivity;
    try (destruct sx; reflexivity);
    try (destruct sy; reflexivity);
    try (destruct sx, sy; reflexivity).
  cbn [SpecFloat.valid_binary] in Hx, Hy.
  pose proof (bounded_facts _ _ Hx) as [Ex _].
  pose proof (bounded_facts _ _ Hy) as [Ey _].
  unfold SF64sub, SFsub. rewrite binary_normalize_ltb by lia.
  pose proof (aligned_compare my mx ey ex Hy Hx) as Hc.
  rewrite (Z.min_comm ey ex) in Hc.
  set (za := Z.pos (fst (shl_align mx ex (Z.min ex ey)))) in *.
  set (zb := Z.pos (fst (shl_align my ey (Z.min ex ey)))) in *.
  assert (Ha : 0 < za) by (unfold za; lia).
  assert (Hb : 0 < zb) by (unfold zb; lia).
  unfold SFltb, SFcompare.
  destruct sx, sy; cbn [cond_Zopp].
  - replace (match ey ?= ex with
             | Eq => CompOpp (Pos.compare_cont Eq my mx)
             | Lt => Gt
             | Gt => Lt
             end)
      with (CompOpp (zb ?= za))
      by (rewrite Hc; destruct (ey ?= ex); reflexivity).
    destruct (Z.compare_spec zb za); cbn [CompOpp]; lia.
  - lia.
  - lia.
  - rewrite <- Hc. destruct (Z.compare_spec zb za); lia.
Qed.

Lemma sub_pos_ltb (a b : float) : (0 <? a - b)%float = (b <? a)%float.
Proof.
  rewrite !ltb_spec, sub_spec.
  change (Prim2SF 0%float) with (S754_zero false).
  apply SFsub_pos; apply Prim2SF_valid.
Qed.

End Binary64Subtraction.

Lemma ltb_leb (x y : float) : (x <? y) = true -> (x <=? y) = true.
Proof.
  rewrite ltb_spec, leb_spec. unfold SFltb, SFleb.
  destruct (SFcompare (Prim2SF x) (Prim2SF y)) as [[ | | ]|]; congruence.
Qed.

(** ** The ranking is a rearrangement of the results *)

Section Ranking.

Lemma sort_insert_perm (x : CalculationResult) (l : list CalculationResult) :
  Permutation (x :: l) (sort_insert x l).
Proof.
  induction l as [|y l IH]; simpl.
  - apply Permutation_refl.
  - destruct (0 <? compareFn x y).
    + apply perm_trans with (y :: x :: l).
      * apply perm_swap.
      * apply perm_skip, IH.
    + apply Permutation_refl.
Qed.

Lemma sort_perm (l : list CalculationResult) : Permutation l (sort l).
Proof.
  induction l as [|x l IH]; simpl.
  - apply perm_nil.
  - apply perm_trans with (x :: sort l).
    + apply perm_skip, IH.
    + apply sort_insert_perm.
Qed.

Lemma In_sort (r : CalculationResult) (l : list CalculationResult) :
  In r (sort l) <-> In r l.
Proof.
  split; intros H.
  - apply Permutation_in with (sort l); [apply Permutation_sym, sort_perm | exact H].
  - apply Permutation_in with l; [apply sort_perm | exact H].
Qed.

Lemma Forall_sort (P : CalculationResult -> Prop) (l : list CalculationResult) :
  Forall P l -> Forall P (sort l).
Proof.
  rewrite !Forall_forall. intros H r Hr. apply H, In_sort, Hr.
Qed.

End Ranking.

(** ** Amortisation leaves the other fields alone *)

Section Amortisation.

Variables g r : CalculationResult.

Lemma amortize_name : name (amortize g r) = name r.
Proof.
  unfold amortize.
  destruct (negb _ && _); [destruct (0 <? _)|]; reflexivity.
Qed.

Lemma amortize_totalCost : totalCost (amortize g r) = totalCost r.
Proof.
  unfold amortize.
  destruct (negb _ && _); [destruct (0 <? _)|]; reflexivity.
Qed.

Lemma amortize_annualFuelCost : annualFuelCost (amortize g r) = annualFuelCost r.
Proof.
  unfold amortize.
  destruct (negb _ && _); [destruct (0 <? _)|]; reflexivity.
Qed.

Lemma amortize_purchasePrice : purchasePrice (amortize g r) = purchasePrice r.
Proof.
  unfold amortize.
  destruct (negb _ && _); [destruct (0 <? _)|]; reflexivity.
Qed.

Lemma amortize_annualKm : annualKm (amortize g r) = annualKm r.
Proof.
  unfold amortize.
  destruct (negb _ && _); [destruct (0 <? _)|]; reflexivity.
Qed.

End Amortisation.

(** Every ranked result is the amortised form of the result computed
    from one of the consumption records. *)
Lemma In_sortedResults (u : UserInput) (p : RoutePreset)
    (data : list FuelConsumptionData) (r : CalculationResult) :
  In r (sortedResults u p data) ->
  exists car, In car data /\
    let r0 := calculateCar u (annualDistances u p) car in
    match gasolineCar (calculatedResults u p data) with
    | Some g => r = amortize g r0
    | None => r = r0
    end.
Proof.
  unfold sortedResults. rewrite In_sort. unfold amortizedResults.
  destruct (gasolineCar (calculatedResults u p data)) as [g|];
    unfold calculatedResults; intros H.
  - apply in_map_iff in H. destruct H as [r0 [Hr H0]].
    apply in_map_iff in H0. destruct H0 as [car [Hc Hin]].
    exists car. split; [exact Hin|]. simpl. subst r0. symmetry. exact Hr.
  - apply in_map_iff in H. destruct H as [car [Hc Hin]].
    exists car. split; [exact Hin|]. simpl. symmetry. exact Hc.
Qed.

Lemma sortedResults_In (u : UserInput) (p : RoutePreset)
    (data : list FuelConsumptionData) (car : FuelConsumptionData) :
  In car data ->
  let r0 := calculateCar u (annualDistances u p) car in
  In (match gasolineCar (calculatedResults u p data) with
      | Some g => amortize g r0
      | None => r0
      end) (sortedResults u p data).
Proof.
  intros Hin. simpl. unfold sortedResults. apply In_sort.
  unfold amortizedResults.
  destruct (gasolineCar (calculatedResults u p data)) as [g|];
    unfold calculatedResults.
  - apply in_map, in_map, Hin.
  - apply in_map, Hin.
Qed.

Lemma gasolineCar_calculatedResults (u : UserInput) (p : RoutePreset)
    (data : list FuelConsumptionData) :
  gasolineCar (calculatedResults u p data)
  = option_map (calculateCar u (annualDistances u p)) (gasolineRecordOf data).
Proof.
  unfold gasolineCar, gasolineRecordOf, calculatedResults.
  induction data as [|car data IH]; simpl; [reflexivity|].
  destruct (CarName_eqb (type car) Gasolina); [reflexivity | exact IH].
Qed.

Lemma CarName_eqb_eq (a b : CarName) : CarName_eqb a b = true <-> a = b.
Proof. destruct a, b; simpl; split; congruence. Qed.

(** ** Annual fuel cost *)

(** Gasoline, diesel and LPG records are charged at the price of their
    own fuel. *)
Lemma conventional_annual_fuel_cost (u : UserInput) (d : AnnualDistances)
    (n : CarName) (cityL highwayL kwh : float) :
  let cost k := carAnnualFuelCost u d (mkFuelConsumptionData n k cityL highwayL kwh) in
  let formula unitPrice :=
    (annualCityKm d / 100) * cityL * unitPrice
    + (annualHighwayKm d / 100) * highwayL * unitPrice in
  cost gasolina = formula (priceGasoline u) /\
  cost diesel = formula (priceDiesel u) /\
  cost glp = formula (priceLPG u).
Proof. repeat split. Qed.

(** A record of fuel type 'hibrido' finds no price in [fuelPrices]: its
    annual fuel cost and its total cost are NaN whatever the inputs. *)
Lemma hybrid_annual_fuel_cost_nan (u : UserInput) (d : AnnualDistances)
    (car : FuelConsumptionData) :
  fuelType car = hibrido ->
  carAnnualFuelCost u d car = nan /\ totalCost (calculateCar u d car) = nan.
Proof.
  intros H. assert (E : carAnnualFuelCost u d car = nan).
  { unfold carAnnualFuelCost. rewrite H. simpl.
    rewrite !mul_nan_r. apply add_nan_r. }
  split; [exact E|]. unfold calculateCar. simpl totalCost.
  rewrite E, mul_nan_l. apply add_nan_r.
Qed.

(** C1: the annual fuel cost of a non-plug-in hybrid record should be
    the conventional formula at the gasoline price. The computed annual
    fuel cost of every record of fuel type 'hibrido' is NaN; for the
    hybrid record of the sample answer and the initial form the formula
    gives 1580.8 (1580.8000000000002 in binary64). *)
Theorem C1_hybrid_cost_is_not_the_gasoline_formula :
  (forall (u : UserInput) (d : AnnualDistances) (n : CarName)
          (cityLiters highwayLiters cityKwh : float),
     carAnnualFuelCost u d
       (mkFuelConsumptionData n hibrido cityLiters highwayLiters cityKwh) = nan) /\
  let d := annualDistances initialUserInput mixed in
  let formula :=
    (annualCityKm d / 100) * cityConsumptionLiters hybridRecord
      * priceGasoline initialUserInput
    + (annualHighwayKm d / 100) * highwayConsumptionLiters hybridRecord
      * priceGasoline initialUserInput in
  formula = 1580.8000000000002 /\
  carAnnualFuelCost initialUserInput d hybridRecord = nan /\
  (carAnnualFuelCost initialUserInput d hybridRecord =? formula) = false.
Proof.
  split.
  - intros. apply hybrid_annual_fuel_cost_nan. reflexivity.
  - vm_compute. repeat split.
Qed.

(** ** Annual distances *)

(** C2: with a strictly positive explicit annual total the city and
    highway distances are that total times the city and highway
    fractions of the active preset (urban 0.8/0.2, mixed 0.5/0.5,
    highway 0.2/0.8); otherwise they are
    (commute * fraction * 2 * 5 + weekend * fraction) * 52. Changing the
    explicit total from 0 to a positive value therefore changes the
    split from the derived one to the proportional one. *)
Theorem C2_annual_distance_split (u : UserInput) (p : RoutePreset) :
  let city := preset_city (presetConfig p) in
  let hwy := preset_highway (presetConfig p) in
  let derivedCity := (weekdayCommuteKm u * city * 2 * 5 + weekendTripKm u * city) * 52 in
  let derivedHwy := (weekdayCommuteKm u * hwy * 2 * 5 + weekendTripKm u * hwy) * 52 in
  ((0 <? estimatedAnnualKm u) = true ->
     annualCityKm (annualDistances u p) = estimatedAnnualKm u * city /\
     annualHighwayKm (annualDistances u p) = estimatedAnnualKm u * hwy /\
     ad_annualKm (annualDistances u p) = estimatedAnnualKm u) /\
  ((0 <? estimatedAnnualKm u) = false ->
     annualCityKm (annualDistances u p) = derivedCity /\
     annualHighwayKm (annualDistances u p) = derivedHwy /\
     ad_annualKm (annualDistances u p) = derivedCity + derivedHwy) /\
  (forall total, (0 <? total) = true ->
     annualDistances (set_estimatedAnnualKm 0 u) p
       = mkAnnualDistances (derivedCity + derivedHwy) derivedCity derivedHwy /\
     annualDistances (set_estimatedAnnualKm total u) p
       = mkAnnualDistances total (total * city) (total * hwy)) /\
  presetConfig urban = mkPresetEntry 0.8 0.2 /\
  presetConfig mixed = mkPresetEntry 0.5 0.5 /\
  presetConfig highway = mkPresetEntry 0.2 0.8.
Proof.
  simpl. unfold annualDistances. repeat split.
  - rewrite H. reflexivity.
  - rewrite H. reflexivity.
  - rewrite H. reflexivity.
  - rewrite H. reflexivity.
  - rewrite H. reflexivity.
  - rewrite H. reflexivity.
  - simpl estimatedAnnualKm. rewrite H. reflexivity.
Qed.

Lemma C2_annual_distance_split_witness :
  annualDistances initialUserInput mixed = mkAnnualDistances 20800 10400 10400 /\
  annualDistances (set_estimatedAnnualKm 15000 initialUserInput) urban
    = mkAnnualDistances 15000 12000 3000.
Proof.
  destruct (C2_annual_distance_split initialUserInput urban)
    as [_ [_ [H _]]].
  destruct (H 15000 eq_refl) as [_ H1].
  destruct (C2_annual_distance_split initialUserInput mixed)
    as [_ [H0 _]].
  destruct (H0 eq_refl) as [Hc [Hh Hk]].
  split.
  - destruct (annualDistances initialUserInput mixed) as [k c h].
    simpl in Hc, Hh, Hk. rewrite Hc, Hh, Hk. reflexivity.
  - rewrite H1. reflexivity.
Defined.

(** C3: the annual fuel cost of a plug-in hybrid record is the sum of
    city electricity, city gasoline and highway gasoline; with 10400 km
    of each kind, 1.5 L and 15 kWh per 100 km in the city, 5 L per
    100 km on the highway, electricity at 0.2 and gasoline at 1.6 it is
    1393.6. *)
Theorem C3_phev_annual_fuel_cost :
  (forall (u : UserInput) (d : AnnualDistances) (n : CarName)
          (cityLiters highwayLiters cityKwh : float),
     annualFuelCost (calculateCar u d
       (mkFuelConsumptionData n phev cityLiters highwayLiters cityKwh))
     = (annualCityKm d / 100) * cityKwh * priceElectricity u
       + (annualCityKm d / 100) * cityLiters * priceGasoline u
       + (annualHighwayKm d / 100) * highwayLiters * priceGasoline u) /\
  (forall (n : CarName) (km commute weekend est pDiesel pLPG b1 b2 b3 b4 b5 y : float),
     annualFuelCost (calculateCar
       (mkUserInput commute weekend est 1.6 pDiesel pLPG 0.2 b1 b2 b3 b4 b5 y)
       (mkAnnualDistances km 10400 10400)
       (mkFuelConsumptionData n phev 1.5 5 15))
     = 1393.6) /\
  map annualFuelCost
    (filter (fun r => CarName_eqb (name r) PHEV)
       (sortedResults initialUserInput mixed sampleConsumptionData))
  = [1393.6].
Proof.
  split; [|split].
  - reflexivity.
  - intros. vm_compute. reflexivity.
  - vm_compute. reflexivity.
Qed.

(** ** Total cost *)

Lemma totalCost_sortedResults (u : UserInput) (p : RoutePreset)
    (data : list FuelConsumptionData) :
  Forall (fun r => totalCost r = purchasePrice r + annualFuelCost r * years u)
         (sortedResults u p data).
Proof.
  apply Forall_forall. intros r Hr.
  destruct (In_sortedResults u p data r Hr) as [car [_ H]]. simpl in H.
  destruct (gasolineCar (calculatedResults u p data)) as [g|]; subst r;
    rewrite ?amortize_totalCost, ?amortize_purchasePrice,
      ?amortize_annualFuelCost; reflexivity.
Qed.

(** C4: the total cost of every result is its purchase price plus its
    annual fuel cost times the horizon. For a 25 km commute, a 150 km
    weekend trip, the mixed preset, 7 years, gasoline at 1.6, a purchase
    price of 25000 and 7 / 5.5 L per 100 km, the annual distance is
    20800 km (10400 city, 10400 highway), the annual fuel cost 2080 and
    the total cost 39560. *)
Theorem C4_total_cost :
  (forall (u : UserInput) (p : RoutePreset) (data : list FuelConsumptionData),
     Forall (fun r => totalCost r = purchasePrice r + annualFuelCost r * years u)
            (sortedResults u p data)) /\
  (forall (pDiesel pLPG pElec b2 b3 b4 b5 kwh : float),
     let u := mkUserInput 25 150 0 1.6 pDiesel pLPG pElec 25000 b2 b3 b4 b5 7 in
     annualDistances u mixed = mkAnnualDistances 20800 10400 10400 /\
     sortedResults u mixed [mkFuelConsumptionData Gasolina gasolina 7 5.5 kwh]
     = [mkCalculationResult Gasolina 39560 2080 None 25000 20800]).
Proof.
  split.
  - exact totalCost_sortedResults.
  - intros. split; vm_compute; reflexivity.
Qed.

(** ** Amortisation against the gasoline baseline *)

Lemma amortize_amortizationYears (g r0 : CalculationResult) :
  amortizationYears r0 = None ->
  amortizationYears (amortize g r0)
  = if negb (CarName_eqb (name r0) Gasolina)
       && (purchasePrice g <? purchasePrice r0)
       && (0 <? annualFuelCost g - annualFuelCost r0)
    then Some ((purchasePrice r0 - purchasePrice g)
               / (annualFuelCost g - annualFuelCost r0))
    else None.
Proof.
  intros H0. unfold amortize.
  destruct (negb (CarName_eqb (name r0) Gasolina)
            && (purchasePrice g <? purchasePrice r0)); simpl.
  - destruct (0 <? annualFuelCost g - annualFuelCost r0); [reflexivity | exact H0].
  - exact H0.
Qed.

(** C5: a result carries amortisation years exactly when a record named
    'Gasolina' is present (its result is the baseline), the result is
    not named 'Gasolina', its purchase price lies strictly above the
    baseline's and the baseline's annual fuel cost lies strictly above
    its own; the value is then the price difference divided by the
    annual saving. In every other case, among them no gasoline record
    and equal annual costs, it is null. *)
Theorem C5_amortization (u : UserInput) (p : RoutePreset)
    (data : list FuelConsumptionData) (r : CalculationResult) :
  In r (sortedResults u p data) ->
  let baseline :=
    option_map (calculateCar u (annualDistances u p)) (gasolineRecordOf data) in
  let paysBack g :=
    name r <> Gasolina /\
    (purchasePrice g <? purchasePrice r) = true /\
    (annualFuelCost r <? annualFuelCost g) = true in
  (amortizationYears r <> None <-> exists g, baseline = Some g /\ paysBack g) /\
  (forall g, baseline = Some g -> paysBack g ->
     amortizationYears r
     = Some ((purchasePrice r - purchasePrice g)
             / (annualFuelCost g - annualFuelCost r))) /\
  (baseline = None -> amortizationYears r = None) /\
  (forall g, baseline = Some g -> annualFuelCost r = annualFuelCost g ->
     amortizationYears r = None).
Proof.
  intros Hr baseline paysBack.
  destruct (In_sortedResults u p data r Hr) as [car [_ H]]. simpl in H.
  rewrite gasolineCar_calculatedResults in H. fold baseline in H.
  assert (Hkey : forall g, baseline = Some g ->
            amortizationYears r
            = if negb (CarName_eqb (name r) Gasolina)
                 && (purchasePrice g <? purchasePrice r)
                 && (annualFuelCost r <? annualFuelCost g)
              then Some ((purchasePrice r - purchasePrice g)
                         / (annualFuelCost g - annualFuelCost r))
              else None).
  { intros g Hg. rewrite Hg in H. subst r.
    rewrite amortize_name, amortize_purchasePrice, amortize_annualFuelCost.
    rewrite <- (sub_pos_ltb (annualFuelCost g)
                  (annualFuelCost (calculateCar u (annualDistances u p) car))).
    apply amortize_amortizationYears. reflexivity. }
  assert (Hpays : forall g, paysBack g <->
            negb (CarName_eqb (name r) Gasolina)
            && (purchasePrice g <? purchasePrice r)
            && (annualFuelCost r <? annualFuelCost g) = true).
  { intros g. unfold paysBack.
    rewrite !andb_true_iff, negb_true_iff, <- not_true_iff_false, CarName_eqb_eq.
    tauto. }
  assert (Hnone : baseline = None -> amortizationYears r = None).
  { intros Hb. rewrite Hb in H. subst r. reflexivity. }
  repeat split.
  - intros Hsome. destruct baseline as [g|] eqn:Eb.
    + exists g. split; [reflexivity|]. apply Hpays.
      specialize (Hkey g eq_refl).
      destruct (negb _ && _ && _); [reflexivity|]. contradiction.
    + elim Hsome. apply Hnone. reflexivity.
  - intros [g [Hg Hp]]. rewrite (Hkey g Hg).
    apply Hpays in Hp. rewrite Hp. discriminate.
  - intros g Hg Hp. rewrite (Hkey g Hg).
    apply Hpays in Hp. rewrite Hp. reflexivity.
  - exact Hnone.
  - intros g Hg Heq. rewrite (Hkey g Hg), Heq.
    rewrite <- (sub_pos_ltb (annualFuelCost g) (annualFuelCost g)), sub_diag_not_pos.
    rewrite andb_false_r. reflexivity.
Qed.

Lemma C5_amortization_witness :
  let g := calculateCar initialUserInput (annualDistances initialUserInput mixed)
             gasolineRecord in
  let r := amortize g (calculateCar initialUserInput
             (annualDistances initialUserInput mixed) dieselRecord) in
  In r (sortedResults initialUserInput mixed sampleConsumptionData) /\
  amortizationYears r
  = Some ((purchasePrice r - purchasePrice g)
          / (annualFuelCost g - annualFuelCost r)).
Proof.
  intros g r.
  assert (Hin : In r (sortedResults initialUserInput mixed sampleConsumptionData)).
  { vm_compute. right. left. reflexivity. }
  split; [exact Hin|].
  destruct (C5_amortization initialUserInput mixed sampleConsumptionData r Hin)
    as [_ [H _]].
  apply (H g).
  - reflexivity.
  - split; [discriminate | split; vm_compute; reflexivity].
Defined.

(** ** Ranking *)

(** A total cost that is NaN is below nothing and above nothing: a list
    of two or more results that holds one is not sorted, in whatever
    order an engine leaves it. *)
Lemma nan_total_never_sorted (l : list CalculationResult) (r : CalculationResult) :
  In r l -> totalCost r = nan -> (2 <= List.length l)%nat ->
  sortedByTotalCost l = false.
Proof.
  induction l as [|a rest IH]; intros Hin Hnan Hlen; [inversion Hin|].
  destruct rest as [|b rest']; [simpl in Hlen; lia|].
  change (sortedByTotalCost (a :: b :: rest'))
    with ((totalCost a <=? totalCost b) && sortedByTotalCost (b :: rest')).
  destruct Hin as [Ha|Hin].
  - subst a. rewrite Hnan, leb_nan_l. reflexivity.
  - destruct rest' as [|c rest''].
    + destruct Hin as [Hb|[]]. subst b. rewrite Hnan, leb_nan_r. reflexivity.
    + rewrite IH; [apply andb_false_r | exact Hin | exact Hnan | simpl; lia].
Qed.

(** The comparator is positive exactly when its first argument costs
    more. *)
Lemma compareFn_pos (a b : CalculationResult) :
  (0 <? compareFn a b) = (totalCost b <? totalCost a).
Proof. apply sub_pos_ltb. Qed.

Lemma sortedByTotalCost_cons (a : CalculationResult) (l : list CalculationResult) :
  sortedByTotalCost (a :: l)
  = match l with
    | b :: _ => (totalCost a <=? totalCost b) && sortedByTotalCost l
    | [] => true
    end.
Proof. reflexivity. Qed.

Lemma sort_insert_head (x : CalculationResult) (l : list CalculationResult) :
  exists t, sort_insert x l = x :: t \/
            exists y l', l = y :: l' /\ sort_insert x l = y :: t /\
                         (totalCost y <? totalCost x) = true.
Proof.
  destruct l as [|y l']; simpl.
  - exists []. left. reflexivity.
  - destruct (0 <? compareFn x y) eqn:E.
    + exists (sort_insert x l'). right. exists y, l'.
      rewrite compareFn_pos in E. auto.
    + exists (y :: l'). left. reflexivity.
Qed.

(** Inserting into a sorted list of results whose total costs are not
    NaN gives a sorted list. *)
Lemma sort_insert_sorted (x : CalculationResult) (l : list CalculationResult) :
  totalCost x <> nan ->
  Forall (fun r => totalCost r <> nan) l ->
  sortedByTotalCost l = true ->
  sortedByTotalCost (sort_insert x l) = true.
Proof.
  intros Hx. induction l as [|y l' IH]; intros Hl Hs; [reflexivity|].
  inversion Hl as [|y0 l0 Hy Hl']; subst.
  cbn [sort_insert]. destruct (0 <? compareFn x y) eqn:E.
  - rewrite compareFn_pos in E.
    assert (Hs' : sortedByTotalCost l' = true).
    { rewrite sortedByTotalCost_cons in Hs. destruct l'; [reflexivity|].
      apply andb_true_iff in Hs. apply Hs. }
    specialize (IH Hl' Hs').
    rewrite sortedByTotalCost_cons.
    destruct (sort_insert_head x l') as [t [Ht|[z [l'' [El [Ht _]]]]]];
      rewrite Ht in *; rewrite IH, andb_true_r.
    + apply ltb_leb, E.
    + subst l'. rewrite sortedByTotalCost_cons in Hs.
      apply andb_true_iff in Hs. apply Hs.
  - rewrite compareFn_pos in E.
    rewrite sortedByTotalCost_cons, Hs, andb_true_r.
    apply not_ltb_leb; assumption.
Qed.

(** Without a NaN among the total costs the ranking is in
    non-decreasing order. *)
Lemma sort_sorted (l : list CalculationResult) :
  Forall (fun r => totalCost r <> nan) l ->
  sortedByTotalCost (sort l) = true.
Proof.
  induction l as [|x l IH]; intros Hl; [reflexivity|].
  inversion Hl as [|x0 l0 Hx Hl']; subst. simpl.
  apply sort_insert_sorted; [exact Hx | apply Forall_sort, Hl' | apply IH, Hl'].
Qed.

Lemma sortedResults_sorted (u : UserInput) (p : RoutePreset)
    (data : list FuelConsumptionData) :
  Forall (fun r => totalCost r <> nan) (calculatedResults u p data) ->
  sortedByTotalCost (sortedResults u p data) = true.
Proof.
  intros H. unfold sortedResults. apply sort_sorted.
  unfold amortizedResults.
  destruct (gasolineCar (calculatedResults u p data)) as [g|]; [|exact H].
  apply Forall_forall. intros r Hr. apply in_map_iff in Hr.
  destruct Hr as [r0 [<- Hr0]]. rewrite amortize_totalCost.
  rewrite Forall_forall in H. apply H, Hr0.
Qed.

Lemma bestResult_is_first (w : Services) (s : AppState)
    (data : list FuelConsumptionData) :
  snd (validateForm s) = true ->
  getFuelConsumptionData w = Fulfilled data ->
  bestResult (fst (handleSubmit w s))
  = hd_error (sortedResults (st_userInput s) (st_routePreset s) data).
Proof.
  intros Hv Hw. unfold handleSubmit.
  destruct (validateForm s) as [s1 valid] eqn:E. simpl in Hv. subst valid.
  simpl. rewrite Hw. unfold bestResult. simpl.
  unfold validateForm in E. inversion E; subst s1. simpl.
  destruct (sortedResults _ _ _); reflexivity.
Qed.

(** C6: the results should come out in non-decreasing order of total
    cost. With the sample answer (one record per vehicle type) and the
    initial form the hybrid's total cost is NaN, so the ranked list is
    not in that order, and neither is any rearrangement of it. With the
    records in the order plug-in hybrid, hybrid, LPG the first result,
    shown as the best option, is the plug-in hybrid although the LPG car
    costs less. *)
Theorem C6_ranking_with_hybrid_is_not_sorted :
  let ranked := sortedResults initialUserInput mixed sampleConsumptionData in
  sortedByTotalCost ranked = false /\
  (forall l, Permutation ranked l -> sortedByTotalCost l = false) /\
  let w := mkServices (Fulfilled [phevRecord; hybridRecord; lpgRecord])
             (fun _ _ => Rejected OtherValue) in
  let s := fst (handleSubmit w initialState) in
  option_map (map name) (st_results s) = Some [PHEV; HEV; GLP] /\
  option_map name (bestResult s) = Some PHEV /\
  option_map (map (fun r => totalCost r <? 44000)) (st_results s)
  = Some [false; false; true].
Proof.
  intros ranked. split; [|split].
  - vm_compute. reflexivity.
  - intros l Hl.
    apply nan_total_never_sorted
      with (r := calculateCar initialUserInput
                   (annualDistances initialUserInput mixed) hybridRecord).
    + apply Permutation_in with ranked; [exact Hl|].
      vm_compute. do 3 right. left. reflexivity.
    + vm_compute. reflexivity.
    + rewrite <- (Permutation_length Hl). vm_compute. lia.
  - vm_compute. repeat split.
Qed.

(** C7: every result should cost at least its purchase price. The
    initial form passes validation, and with the sample answer the
    hybrid's result has purchase price 30000 and total cost NaN, which
    is not at least 30000; the other four results do cost at least
    their purchase price. *)
Theorem C7_hybrid_total_cost_not_above_purchase_price :
  snd (validateForm initialState) = true /\
  let ranked := sortedResults initialUserInput mixed sampleConsumptionData in
  let r := calculateCar initialUserInput
             (annualDistances initialUserInput mixed) hybridRecord in
  In r ranked /\
  purchasePrice r = 30000 /\
  totalCost r = nan /\
  (purchasePrice r <=? totalCost r) = false /\
  map (fun r => (name r, purchasePrice r <=? totalCost r)) ranked
  = [(GLP, true); (Diesel, true); (Gasolina, true); (HEV, false); (PHEV, true)].
Proof.
  split; [reflexivity|]. intros ranked r. split.
  - vm_compute. do 3 right. left. reflexivity.
  - vm_compute. repeat split.
Qed.

(** ** Form validation *)

Lemma Key_eqb_eq (a b : Key.t) : Key.eqb a b = true <-> a = b.
Proof. destruct a, b; simpl; split; congruence. Qed.

Lemma Key_eqb_refl (a : Key.t) : Key.eqb a a = true.
Proof. destruct a; reflexivity. Qed.

Lemma lookupError_assignError (k k' : Key.t) (msg : string) (errors : FormErrors) :
  lookupError k (assignError k' msg errors)
  = if Key.eqb k k' then Some msg else lookupError k errors.
Proof.
  induction errors as [|[k0 m0] rest IH]; simpl; [reflexivity|].
  destruct (Key.eqb k' k0) eqn:E1; simpl.
  - apply Key_eqb_eq in E1. subst k0.
    destruct (Key.eqb k k'); reflexivity.
  - rewrite IH.
    destruct (Key.eqb k k0) eqn:E2, (Key.eqb k k') eqn:E3; try reflexivity.
    apply Key_eqb_eq in E2, E3. subst k0 k'.
    rewrite Key_eqb_refl in E1. discriminate E1.
Qed.

(** One [forEach] of [validateForm]: afterwards a field has the message
    when it is in the list and fails the test, and what it had before
    otherwise. *)
Lemma lookupError_forEach (bad : Key.t -> bool) (msg : string) (k : Key.t)
    (fields : list Key.t) (errors : FormErrors) :
  lookupError k
    (fold_left (fun errors field =>
                  if bad field then assignError field msg errors else errors)
               fields errors)
  = if existsb (fun field => Key.eqb k field && bad field) fields
    then Some msg else lookupError k errors.
Proof.
  revert errors. induction fields as [|f fields IH]; intros errors; simpl;
    [reflexivity|].
  rewrite IH. destruct (existsb _ fields).
  - rewrite orb_true_r. reflexivity.
  - rewrite orb_false_r. destruct (bad f).
    + rewrite lookupError_assignError, andb_true_r. reflexivity.
    + rewrite andb_false_r. reflexivity.
Qed.

Lemma noKeys_iff (errors : FormErrors) :
  noKeys errors = true <-> forall k, lookupError k errors = None.
Proof.
  destruct errors as [|[k0 m0] rest]; simpl; split; intros H.
  - reflexivity.
  - reflexivity.
  - discriminate H.
  - specialize (H k0). rewrite Key_eqb_refl in H. discriminate H.
Qed.

Lemma lookupError_validateForm (u : UserInput) (k : Key.t) :
  (inError u k = true -> lookupError k (validateForm_errors u) <> None) /\
  (inError u k = false -> lookupError k (validateForm_errors u) = None).
Proof.
  unfold validateForm_errors.
  assert (E : forall e : FormErrors,
            lookupError k (if years u <? 1
                           then assignError Key.years "Debe ser al menos 1 año." e
                           else e)
            = if (years u <? 1) && Key.eqb k Key.years
              then Some "Debe ser al menos 1 año."%string
              else lookupError k e).
  { intros e. destruct (years u <? 1); simpl; [|reflexivity].
    apply lookupError_assignError. }
  rewrite E, !lookupError_forEach. clear E.
  destruct k; simpl;
    rewrite ?andb_false_r, ?andb_true_r, ?orb_false_r;
    match goal with
    | |- context [if ?c then _ else _] => destruct c
    end; split; congruence.
Qed.

Lemma validateForm_accepts (s : AppState) :
  snd (validateForm s) = true <-> forall k, inError (st_userInput s) k = false.
Proof.
  unfold validateForm. simpl. rewrite noKeys_iff. split; intros H k.
  - destruct (inError (st_userInput s) k) eqn:E; [|reflexivity].
    exfalso. apply (proj1 (lookupError_validateForm (st_userInput s) k) E), H.
  - apply (proj2 (lookupError_validateForm (st_userInput s) k)), H.
Qed.

(** C8: a price or purchase price that is not positive, a negative
    distance or a horizon below one year gets an error message under
    its own field, and then nothing of the calculation starts: no call
    to the consumption service, the loading flag and the results as they
    were. The consumption service is called exactly when no field is in
    error. *)
Theorem C8_validation_gates_calculation (w : Services) (s : AppState) :
  let u := st_userInput s in
  let s' := fst (handleSubmit w s) in
  let calls := snd (handleSubmit w s) in
  (forall k, inError u k = true ->
     lookupError k (st_formErrors s') <> None /\
     calls = [] /\
     s' = setFormErrors (validateForm_errors u) s) /\
  (forall k, inError u k = false -> lookupError k (st_formErrors s') = None) /\
  (calls = [CallFuelConsumptionData] <-> forall k, inError u k = false) /\
  (calls = [] \/ calls = [CallFuelConsumptionData]).
Proof.
  intros u s' calls.
  assert (Hrej : snd (validateForm s) = false ->
                 s' = setFormErrors (validateForm_errors u) s /\ calls = []).
  { unfold s', calls, handleSubmit. destruct (validateForm s) as [s1 v] eqn:E.
    simpl. intros ->. simpl. unfold validateForm in E. inversion E. auto. }
  assert (Hacc : snd (validateForm s) = true ->
                 st_formErrors s' = validateForm_errors u /\
                 calls = [CallFuelConsumptionData]).
  { unfold s', calls, handleSubmit. destruct (validateForm s) as [s1 v] eqn:E.
    simpl. intros ->. simpl. unfold validateForm in E. inversion E.
    destruct (getFuelConsumptionData w); auto. }
  pose proof (validateForm_accepts s) as Hiff. fold u in Hiff.
  destruct (snd (validateForm s)) eqn:Ev.
  - destruct (Hacc eq_refl) as [Hf Hc]. rewrite Hf, Hc.
    pose proof (proj1 Hiff eq_refl) as Hok.
    repeat split.
    + rewrite (Hok k) in H. discriminate H.
    + rewrite (Hok k) in H. discriminate H.
    + rewrite (Hok k) in H. discriminate H.
    + intros k _. apply (lookupError_validateForm u k), Hok.
    + intros _. exact Hok.
    + right. reflexivity.
  - destruct (Hrej eq_refl) as [Hs Hc]. rewrite Hs, Hc.
    repeat split.
    + apply (lookupError_validateForm u k), H.
    + intros k. apply (lookupError_validateForm u k).
    + intros H. discriminate H.
    + intros H. apply Hiff in H. discriminate H.
    + left. reflexivity.
Qed.

(** ** The ownership horizon *)




(** [validateForm] on its own does not ask for a whole number of years:
    a horizon of 1.5 passes it. It is the step of the years input that
    stops such a form before the submit event, so that nothing of
    [handleSubmit] runs. *)
Example fractional_horizon_stops_at_the_input :
  let s := setUserInput (set_years 1.5) initialState in
  snd (validateForm s) = true /\
  Number_isInteger (years (st_userInput s)) = false /\
  constraintValidation (st_userInput s) = false /\
  submitForm (mkServices (Fulfilled sampleConsumptionData)
                (fun _ _ => Rejected OtherValue)) s = (s, []).
Proof. vm_compute. repeat split. Qed.



(** ** Route estimation *)

Example Math_round_examples :
  map Math_round [24.5; 24.4; 2.5; -2.5; 0.3; 0.49999999999999994; 40]
  = [25; 24; 3; -2; 0; 0; 40].
Proof. vm_compute. reflexivity. Qed.

Lemma isEmpty_iff (a : string) : isEmpty a = true <-> a = EmptyString.
Proof. destruct a; simpl; split; congruence. Qed.

(** C10: with an empty home or work address the handler sets its error
    message and calls no service. Otherwise it asks for the route once,
    and on an answer (distance, cityPercentage) the weekday commute
    becomes the rounded distance and the preset becomes urban exactly
    when cityPercentage >= 70, highway exactly when cityPercentage <= 30
    and mixed otherwise. *)
Theorem C10_route_estimation (w : Services) (s : AppState) :
  let s' := fst (handleRouteCalculation w s) in
  let calls := snd (handleRouteCalculation w s) in
  let home := st_homeAddress s in
  let work := st_workAddress s in
  (home = EmptyString \/ work = EmptyString ->
     s' = setError
            (Some "Por favor, introduce la dirección de casa y del trabajo."%string) s /\
     calls = []) /\
  (home <> EmptyString -> work <> EmptyString ->
     calls = [CallRouteDetails home work] /\
     forall r, getRouteDetails w home work = Fulfilled r ->
       weekdayCommuteKm (st_userInput s') = Math_round (distance r) /\
       (st_routePreset s' = urban <-> (70 <=? cityPercentage r) = true) /\
       (st_routePreset s' = highway <-> (cityPercentage r <=? 30) = true) /\
       (st_routePreset s' = mixed <->
          (70 <=? cityPercentage r) = false /\ (cityPercentage r <=? 30) = false)).
Proof.
  intros s' calls home work. unfold s', calls, handleRouteCalculation.
  fold home work. split.
  - intros H.
    assert (E : isEmpty home || isEmpty work = true).
    { apply orb_true_iff. destruct H as [H|H]; [left|right];
        apply isEmpty_iff, H. }
    rewrite E. split; reflexivity.
  - intros Hh Hw.
    assert (E : isEmpty home || isEmpty work = false).
    { apply orb_false_iff. split; apply not_true_iff_false;
        rewrite isEmpty_iff; assumption. }
    rewrite E. simpl st_homeAddress. simpl st_workAddress. fold home work.
    split.
    + destruct (getRouteDetails w home work); reflexivity.
    + intros r Hr. rewrite Hr. split; [|split; [|split]].
      * destruct (70 <=? cityPercentage r); [|destruct (cityPercentage r <=? 30)];
          reflexivity.
      * destruct (70 <=? cityPercentage r); [|destruct (cityPercentage r <=? 30)];
          simpl; split; congruence.
      * destruct (cityPercentage r <=? 30) eqn:E30.
        -- rewrite (leb_30_not_70 _ E30). simpl. split; congruence.
        -- destruct (70 <=? cityPercentage r); simpl; split; congruence.
      * destruct (70 <=? cityPercentage r); [|destruct (cityPercentage r <=? 30)];
          simpl; split; intros H; try discriminate H;
          try (destruct H; congruence); auto.
Qed.

Lemma C10_route_estimation_witness :
  let w := mkServices (Fulfilled sampleConsumptionData)
             (fun _ _ => Fulfilled (mkRouteDetails 24.6 75)) in
  let s := mkAppState initialUserInput None None false None [] false mixed
             "Calle Mayor 1, Madrid" "Gran Via 2, Madrid" in
  snd (handleRouteCalculation w s)
    = [CallRouteDetails "Calle Mayor 1, Madrid" "Gran Via 2, Madrid"] /\
  weekdayCommuteKm (st_userInput (fst (handleRouteCalculation w s))) = 25 /\
  st_routePreset (fst (handleRouteCalculation w s)) = urban.
Proof.
  intros w s.
  destruct (C10_route_estimation w s) as [_ H].
  destruct H as [Hc Hr]; [discriminate | discriminate |].
  destruct (Hr (mkRouteDetails 24.6 75) eq_refl) as [Hd [Hu _]].
  split; [exact Hc|]. split.
  - rewrite Hd. vm_compute. reflexivity.
  - apply Hu. reflexivity.
Defined.

(** * Further properties of the handlers and of the recommendation *)

(** ** More on the order of binary64 numbers *)

Section Binary64Order.

Lemma lexCompare_spec (m1 : positive) (e1 : Z) (m2 : positive) (e2 : Z) :
  match lexCompare m1 e1 m2 e2 with
  | Lt => (e1 < e2 \/ (e1 = e2 /\ Z.pos m1 < Z.pos m2))%Z
  | Eq => (e1 = e2 /\ Z.pos m1 = Z.pos m2)%Z
  | Gt => (e2 < e1 \/ (e1 = e2 /\ Z.pos m2 < Z.pos m1))%Z
  end.
Proof.
  unfold lexCompare. destruct (Z.compare_spec e1 e2) as [E|E|E]; auto.
  change (Pos.compare_cont Eq m1 m2) with (Pos.compare m1 m2).
  destruct (Pos.compare_spec m1 m2) as [M|M|M]; subst; auto; right; split; auto;
    apply Pos2Z.pos_lt_pos, M.
Qed.

Lemma lexCompare_le_trans (m1 m2 m3 : positive) (e1 e2 e3 : Z) :
  lexCompare m1 e1 m2 e2 <> Gt -> lexCompare m2 e2 m3 e3 <> Gt ->
  lexCompare m1 e1 m3 e3 <> Gt.
Proof.
  pose proof (lexCompare_spec m1 e1 m2 e2) as H12.
  pose proof (lexCompare_spec m2 e2 m3 e3) as H23.
  pose proof (lexCompare_spec m1 e1 m3 e3) as H13.
  destruct (lexCompare m1 e1 m2 e2), (lexCompare m2 e2 m3 e3),
    (lexCompare m1 e1 m3 e3); intros A B; try congruence; exfalso; lia.
Qed.

Lemma lexCompare_ge_trans (m1 m2 m3 : positive) (e1 e2 e3 : Z) :
  lexCompare m1 e1 m2 e2 <> Lt -> lexCompare m2 e2 m3 e3 <> Lt ->
  lexCompare m1 e1 m3 e3 <> Lt.
Proof.
  pose proof (lexCompare_spec m1 e1 m2 e2) as H12.
  pose proof (lexCompare_spec m2 e2 m3 e3) as H23.
  pose proof (lexCompare_spec m1 e1 m3 e3) as H13.
  destruct (lexCompare m1 e1 m2 e2), (lexCompare m2 e2 m3 e3),
    (lexCompare m1 e1 m3 e3); intros A B; try congruence; exfalso; lia.
Qed.

Lemma SFcompare_finite (s1 s2 : bool) (m1 m2 : positive) (e1 e2 : Z) :
  SFcompare (S754_finite s1 m1 e1) (S754_finite s2 m2 e2)
  = Some match s1, s2 with
         | true, false => Lt
         | false, true => Gt
         | false, false => lexCompare m1 e1 m2 e2
         | true, true => CompOpp (lexCompare m1 e1 m2 e2)
         end.
Proof.
  unfold lexCompare. destruct s1, s2; simpl; try reflexivity.
  destruct (e1 ?= e2)%Z; reflexivity.
Qed.

Lemma SFleb_trans (x y z : spec_float) :
  SFleb x y = true -> SFleb y z = true -> SFleb x z = true.
Proof.
  unfold SFleb.
  destruct x as [sx|sx| |sx mx ex], y as [sy|sy| |sy my ey],
    z as [sz|sz| |sz mz ez];
    rewrite ?SFcompare_finite;
    try (simpl; intros; congruence);
    try (destruct sx; simpl; intros; congruence);
    try (destruct sy; simpl; intros; congruence);
    try (destruct sz; simpl; intros; congruence);
    try (destruct sx, sy; simpl; intros; congruence);
    try (destruct sx, sz; simpl; intros; congruence);
    try (destruct sy, sz; simpl; intros; congruence);
    try (destruct sx, sy, sz; simpl; intros; congruence).
  all: destruct sx, sy, sz; try (simpl; intros; congruence).
  all: intros H1 H2.
  - pose proof (lexCompare_ge_trans mx my mz ex ey ez) as T.
    destruct (lexCompare mx ex my ey), (lexCompare my ey mz ez),
      (lexCompare mx ex mz ez); simpl in *; try congruence;
      exfalso; apply T; congruence.
  - pose proof (lexCompare_le_trans mx my mz ex ey ez) as T.
    destruct (lexCompare mx ex my ey), (lexCompare my ey mz ez),
      (lexCompare mx ex mz ez); simpl in *; try congruence;
      exfalso; apply T; congruence.
Qed.

Lemma leb_trans (x y z : float) :
  (x <=? y) = true -> (y <=? z) = true -> (x <=? z) = true.
Proof. rewrite !leb_spec. apply SFleb_trans. Qed.

Lemma not_leb_ltb (x y : float) :
  x <> nan -> y <> nan -> (x <=? y) = false -> (y <? x) = true.
Proof.
  intros Hx Hy. rewrite ltb_spec, leb_spec. unfold SFltb, SFleb.
  rewrite (SFcompare_antisym (Prim2SF x) (Prim2SF y)).
  destruct (SFcompare (Prim2SF x) (Prim2SF y)) as [[ | | ]|] eqn:E;
    simpl; try congruence.
  intros _. exfalso.
  destruct (SFcompare_None _ _ E) as [H|H];
    [apply Hx | apply Hy]; apply Prim2SF_nan_inv, H.
Qed.

Lemma ltb_not_leb (x y : float) : (x <? y) = true -> (y <=? x) = false.
Proof.
  rewrite ltb_spec, leb_spec. unfold SFltb, SFleb.
  rewrite (SFcompare_antisym (Prim2SF x) (Prim2SF y)).
  destruct (SFcompare (Prim2SF x) (Prim2SF y)) as [[ | | ]|]; simpl; congruence.
Qed.

Lemma ltb_irrefl (x : float) : (x <? x) = false.
Proof. rewrite <- (sub_pos_ltb x x). apply sub_diag_not_pos. Qed.

Lemma leb_refl (x : float) : x <> nan -> (x <=? x) = true.
Proof. intros H. apply not_ltb_leb; [exact H | exact H | apply ltb_irrefl]. Qed.

Lemma div_nan_l (x : float) : nan / x = nan.
Proof.
  apply Prim2SF_inj. rewrite div_spec, Prim2SF_nan. reflexivity.
Qed.

(** A truthy number is not NaN, and [x || d] is not NaN when [d] is
    not. *)
Lemma truthy_not_nan (x : float) : truthy x = true -> x <> nan.
Proof.
  unfold truthy. intros H Hx. subst x. vm_compute in H. discriminate H.
Qed.

Lemma orElse_not_nan (x d : float) : d <> nan -> orElse x d <> nan.
Proof.
  intros Hd. unfold orElse. destruct (truthy x) eqn:E;
    [apply truthy_not_nan, E | exact Hd].
Qed.

End Binary64Order.

(** ** Editing the form *)

Lemma getField_setField (u : UserInput) (k k' : Key.t) (v : float) :
  getField (setField u k v) k' = if Key.eqb k' k then v else getField u k'.
Proof. destruct k, k'; reflexivity. Qed.

Lemma lookupError_deleteError (k k' : Key.t) (errors : FormErrors) :
  lookupError k' (deleteError k errors)
  = if Key.eqb k' k then None else lookupError k' errors.
Proof.
  induction errors as [|[k0 m0] rest IH]; simpl.
  - destruct (Key.eqb k' k); reflexivity.
  - destruct (Key.eqb k k0) eqn:E1; simpl.
    + apply Key_eqb_eq in E1. subst k0. rewrite IH.
      destruct (Key.eqb k' k); reflexivity.
    + rewrite IH.
      destruct (Key.eqb k' k0) eqn:E2, (Key.eqb k' k) eqn:E3; try reflexivity.
      apply Key_eqb_eq in E2, E3. subst k0 k'.
      rewrite Key_eqb_refl in E1. discriminate E1.
Qed.

Lemma Key_eqb_neq (a b : Key.t) : a <> b -> Key.eqb a b = false.
Proof.
  intros H. destruct (Key.eqb a b) eqn:E; [|reflexivity].
  apply Key_eqb_eq in E. contradiction.
Qed.

Lemma handleInputChange_field (parseFloat : string -> float)
    (k : Key.t) (value : string) (s : AppState) :
  let s' := handleInputChange parseFloat (mkChangeEvent (NameField k) value) s in
  st_userInput s' = setField (st_userInput s) k (orElse (parseFloat value) 0) /\
  st_results s' = st_results s /\
  st_routePreset s' = st_routePreset s /\
  st_homeAddress s' = st_homeAddress s /\
  st_workAddress s' = st_workAddress s.
Proof.
  unfold handleInputChange. simpl.
  destruct (lookupError k (st_formErrors s)) as [msg|];
    [destruct (isEmpty msg)|]; repeat split.
Qed.

Lemma zero_not_nan : 0 <> nan.
Proof. intros H. vm_compute in H. discriminate H. Qed.

(** X1: typing into a number field stores [parseFloat(value)] when that
    is neither zero nor NaN and 0 otherwise, so never NaN, whatever
    [parseFloat] returns; the other fields, the preset, the addresses
    and the results stay as they were. *)
Theorem X1_input_change_stores_a_number (parseFloat : string -> float)
    (k : Key.t) (value : string) (s : AppState) :
  let s' := handleInputChange parseFloat (mkChangeEvent (NameField k) value) s in
  let v := parseFloat value in
  getField (st_userInput s') k = (if (v =? 0) || is_nan v then 0 else v) /\
  getField (st_userInput s') k <> nan /\
  (forall k', k' <> k ->
     getField (st_userInput s') k' = getField (st_userInput s) k') /\
  st_results s' = st_results s /\
  st_routePreset s' = st_routePreset s /\
  st_homeAddress s' = st_homeAddress s /\
  st_workAddress s' = st_workAddress s.
Proof.
  intros s' v.
  destruct (handleInputChange_field parseFloat k value s) as [Hu Hrest].
  fold s' in Hu, Hrest. rewrite Hu. split; [|split; [|split]].
  - rewrite getField_setField, Key_eqb_refl. unfold orElse, truthy. fold v.
    destruct (v =? 0), (is_nan v); reflexivity.
  - rewrite getField_setField, Key_eqb_refl. apply orElse_not_nan, zero_not_nan.
  - intros k' Hk. rewrite getField_setField, (Key_eqb_neq _ _ Hk). reflexivity.
  - exact Hrest.
Qed.

(** X2: a form without NaN stays without NaN under every change event
    (a number field or an address). *)
Theorem X2_input_change_keeps_numbers (parseFloat : string -> float)
    (e : ChangeEvent) (s : AppState) :
  allNumbers (st_userInput s) ->
  allNumbers (st_userInput (handleInputChange parseFloat e s)).
Proof.
  intros H. destruct e as [[ | |k] value].
  - exact H.
  - exact H.
  - intros k'.
    destruct (handleInputChange_field parseFloat k value s) as [Hu _].
    rewrite Hu, getField_setField.
    destruct (Key.eqb k' k); [apply orElse_not_nan, zero_not_nan | apply H].
Qed.

Lemma allNumbers_initialUserInput : allNumbers initialUserInput.
Proof. intros k H. destruct k; vm_compute in H; discriminate H. Qed.

Lemma X2_input_change_keeps_numbers_witness :
  allNumbers (st_userInput
    (handleInputChange (fun _ => nan)
       (mkChangeEvent (NameField Key.years) "siete") initialState)).
Proof.
  apply (X2_input_change_keeps_numbers (fun _ => nan)
           (mkChangeEvent (NameField Key.years) "siete") initialState).
  exact allNumbers_initialUserInput.
Defined.

(** ** Validation messages *)

Lemma messageFor_not_empty (k : Key.t) : isEmpty (messageFor k) = false.
Proof. destruct k; reflexivity. Qed.

Lemma lookupError_validateForm_message (u : UserInput) (k : Key.t) :
  lookupError k (validateForm_errors u)
  = if inError u k then Some (messageFor k) else None.
Proof.
  unfold validateForm_errors.
  assert (E : forall e : FormErrors,
            lookupError k (if years u <? 1
                           then assignError Key.years "Debe ser al menos 1 año." e
                           else e)
            = if (years u <? 1) && Key.eqb k Key.years
              then Some "Debe ser al menos 1 año."%string
              else lookupError k e).
  { intros e. destruct (years u <? 1); simpl; [|reflexivity].
    apply lookupError_assignError. }
  rewrite E, !lookupError_forEach. clear E.
  destruct k; simpl;
    rewrite ?andb_false_r, ?andb_true_r, ?orb_false_r;
    match goal with
    | |- context [if ?c then _ else _] => destruct c
    end; reflexivity.
Qed.

(** X3: after validation each field in error carries the message of its
    kind ('Debe ser un valor positivo.' for a price or purchase price,
    'No puede ser un valor negativo.' for a distance, 'Debe ser al menos
    1 año.' for the horizon), and a field not in error carries none. *)
Theorem X3_validation_message_by_kind (s : AppState) (k : Key.t) :
  lookupError k (st_formErrors (fst (validateForm s)))
  = if inError (st_userInput s) k then Some (messageFor k) else None.
Proof. apply lookupError_validateForm_message. Qed.

(** X4: typing into a field that validation flagged removes the message
    of that field and leaves the message of every other field. *)
Theorem X4_editing_clears_only_that_error (parseFloat : string -> float)
    (k : Key.t) (value : string) (s0 : AppState) :
  let s := fst (validateForm s0) in
  let s' := handleInputChange parseFloat (mkChangeEvent (NameField k) value) s in
  lookupError k (st_formErrors s') = None /\
  forall k', k' <> k ->
    lookupError k' (st_formErrors s') = lookupError k' (st_formErrors s).
Proof.
  intros s s'. unfold s', handleInputChange. simpl.
  rewrite (lookupError_validateForm_message (st_userInput s0) k).
  destruct (inError (st_userInput s0) k) eqn:E.
  - rewrite messageFor_not_empty. simpl. split.
    + rewrite lookupError_deleteError, Key_eqb_refl. reflexivity.
    + intros k' Hk. rewrite lookupError_deleteError, (Key_eqb_neq _ _ Hk).
      reflexivity.
  - simpl. split; [|reflexivity].
    rewrite (lookupError_validateForm_message (st_userInput s0) k), E.
    reflexivity.
Qed.

(** ** Validation of a form without NaN *)

Lemma one_not_nan : 1 <> nan.
Proof. intros H. vm_compute in H. discriminate H. Qed.

Lemma In_positiveFields (k : Key.t) :
  In k positiveFields <->
  k = Key.priceGasoline \/ k = Key.priceDiesel \/ k = Key.priceLPG \/
  k = Key.priceElectricity \/ k = Key.purchaseGasoline \/
  k = Key.purchaseDiesel \/ k = Key.purchaseLPG \/ k = Key.purchaseHEV \/
  k = Key.purchasePHEV.
Proof. simpl. intuition congruence. Qed.

Lemma In_nonNegativeFields (k : Key.t) :
  In k nonNegativeFields <->
  k = Key.weekdayCommuteKm \/ k = Key.weekendTripKm \/ k = Key.estimatedAnnualKm.
Proof. simpl. intuition congruence. Qed.

(** X5: on a form without NaN validation passes exactly when every
    price and purchase price is strictly positive, every distance is at
    least zero and the horizon is at least one year. *)
Theorem X5_accepted_form_is_in_range (s : AppState) :
  allNumbers (st_userInput s) ->
  (snd (validateForm s) = true <->
   (forall k, In k positiveFields -> (0 <? getField (st_userInput s) k) = true) /\
   (forall k, In k nonNegativeFields ->
      (0 <=? getField (st_userInput s) k) = true) /\
   (1 <=? years (st_userInput s)) = true).
Proof.
  intros Hn. rewrite validateForm_accepts. set (u := st_userInput s) in *.
  split.
  - intros H. split; [|split].
    + intros k Hk. apply not_leb_ltb; [apply Hn | apply zero_not_nan |].
      specialize (H k). apply In_positiveFields in Hk.
      decompose [or] Hk; subst k; exact H.
    + intros k Hk. apply not_ltb_leb; [apply Hn | apply zero_not_nan |].
      specialize (H k). apply In_nonNegativeFields in Hk.
      decompose [or] Hk; subst k; exact H.
    + apply not_ltb_leb; [apply (Hn Key.years) | apply one_not_nan |].
      exact (H Key.years).
  - intros [Hp [Hd Hy]] k.
    destruct k; cbv beta iota delta [inError];
      first [ apply ltb_not_leb, Hp; simpl; tauto
            | apply leb_not_ltb, Hd; simpl; tauto
            | apply leb_not_ltb, Hy ].
Qed.

Lemma X5_accepted_form_is_in_range_witness :
  snd (validateForm initialState) = true /\
  (0 <? priceGasoline initialUserInput) = true /\
  (0 <=? weekdayCommuteKm initialUserInput) = true.
Proof.
  pose proof (X5_accepted_form_is_in_range initialState
                allNumbers_initialUserInput) as [H _].
  assert (Hv : snd (validateForm initialState) = true) by reflexivity.
  destruct (H Hv) as [Hp [Hd _]].
  split; [exact Hv|]. split.
  - apply (Hp Key.priceGasoline). simpl. tauto.
  - apply (Hd Key.weekdayCommuteKm). simpl. tauto.
Defined.

(** ** Route estimation: what is kept, and a distance that is NaN *)

Lemma handleRouteCalculation_nonempty (w : Services) (s : AppState) :
  st_homeAddress s <> EmptyString -> st_workAddress s <> EmptyString ->
  handleRouteCalculation w s
  = (let s1 := setError None (setIsCalculatingRoute true s) in
     match getRouteDetails w (st_homeAddress s) (st_workAddress s) with
     | Fulfilled r =>
         let s2 := setUserInput (set_weekdayCommuteKm (Math_round (distance r))) s1 in
         let s3 :=
           if 70 <=? cityPercentage r then setRoutePreset urban s2
           else if cityPercentage r <=? 30 then setRoutePreset highway s2
           else setRoutePreset mixed s2 in
         setIsCalculatingRoute false s3
     | Rejected err =>
         setIsCalculatingRoute false
           (setError (Some (messageOf err
              "Ocurrió un error inesperado al calcular la ruta."%string)) s1)
     end,
     [CallRouteDetails (st_homeAddress s) (st_workAddress s)]).
Proof.
  intros Hh Hw. unfold handleRouteCalculation.
  assert (E : isEmpty (st_homeAddress s) || isEmpty (st_workAddress s) = false).
  { apply orb_false_iff. split; apply not_true_iff_false;
      rewrite isEmpty_iff; assumption. }
  rewrite E. simpl.
  destruct (getRouteDetails w (st_homeAddress s) (st_workAddress s)); reflexivity.
Qed.

(** X6: route estimation never touches the results, the recommendation,
    the loading flag, the field errors or the addresses. With both
    addresses given the busy flag is down again at the end, whether the
    service answered or failed; when it failed the form and the preset
    are as before and the error is the failure's message, or the fixed
    text for a thrown value that is not an Error. *)
Theorem X6_route_estimation_frame (w : Services) (s : AppState) :
  let s' := fst (handleRouteCalculation w s) in
  (st_results s' = st_results s /\
   st_recommendation s' = st_recommendation s /\
   st_isLoading s' = st_isLoading s /\
   st_formErrors s' = st_formErrors s /\
   st_homeAddress s' = st_homeAddress s /\
   st_workAddress s' = st_workAddress s) /\
  (st_homeAddress s <> EmptyString -> st_workAddress s <> EmptyString ->
   st_isCalculatingRoute s' = false /\
   forall err,
     getRouteDetails w (st_homeAddress s) (st_workAddress s) = Rejected err ->
     st_userInput s' = st_userInput s /\
     st_routePreset s' = st_routePreset s /\
     st_error s'
     = Some match err with
            | ErrorObject message => message
            | OtherValue =>
                "Ocurrió un error inesperado al calcular la ruta."%string
            end).
Proof.
  intros s'. split.
  - unfold s', handleRouteCalculation.
    destruct (isEmpty (st_homeAddress s) || isEmpty (st_workAddress s));
      [repeat split|].
    destruct (getRouteDetails w _ _) as [r|err]; simpl.
    + destruct (70 <=? cityPercentage r); [|destruct (cityPercentage r <=? 30)];
        repeat split.
    + repeat split.
  - intros Hh Hw. unfold s'. rewrite (handleRouteCalculation_nonempty w s Hh Hw).
    simpl. split.
    + destruct (getRouteDetails w _ _) as [r|err]; simpl; [|reflexivity].
      destruct (70 <=? cityPercentage r); [|destruct (cityPercentage r <=? 30)];
        reflexivity.
    + intros err Herr. rewrite Herr. simpl. destruct err; repeat split.
Qed.

Lemma X6_route_estimation_frame_witness :
  let w := mkServices (Fulfilled sampleConsumptionData)
             (fun _ _ => Rejected (ErrorObject "sin red")) in
  let s := mkAppState initialUserInput None None false None [] false urban
             "Calle Mayor 1, Madrid" "Gran Via 2, Madrid" in
  st_isCalculatingRoute (fst (handleRouteCalculation w s)) = false /\
  st_routePreset (fst (handleRouteCalculation w s)) = urban /\
  st_error (fst (handleRouteCalculation w s)) = Some "sin red"%string.
Proof.
  intros w s.
  destruct (X6_route_estimation_frame w s) as [_ H].
  destruct H as [Hbusy Hrej]; [discriminate | discriminate |].
  destruct (Hrej (ErrorObject "sin red") eq_refl) as [_ [Hp He]].
  split; [exact Hbusy|]. split; [exact Hp | exact He].
Defined.

(** With NaN for both annual distances every fuel cost is NaN. *)
Lemma carAnnualFuelCost_nan (u : UserInput) (d : AnnualDistances)
    (car : FuelConsumptionData) :
  annualCityKm d = nan -> annualHighwayKm d = nan ->
  carAnnualFuelCost u d car = nan.
Proof.
  intros Hc Hh. unfold carAnnualFuelCost. rewrite Hc, Hh, div_nan_l.
  destruct (FuelType_eqb (fuelType car) phev);
    rewrite !mul_nan_l; apply add_nan_r.
Qed.

Lemma annualDistances_nan_commute (u : UserInput) (p : RoutePreset) :
  weekdayCommuteKm u = nan -> (0 <? estimatedAnnualKm u) = false ->
  annualCityKm (annualDistances u p) = nan /\
  annualHighwayKm (annualDistances u p) = nan.
Proof.
  intros Hc He. unfold annualDistances. rewrite He, Hc. simpl.
  rewrite !mul_nan_l, !add_nan_l, !mul_nan_l. split; reflexivity.
Qed.

(** X7: a distance of NaN from the route service becomes a commute of
    NaN, which validation does not flag; if no other field is in error
    the next submission is accepted, and without an explicit annual
    total every result then has a total cost of NaN and no
    amortisation. *)
Theorem X7_nan_distance_poisons_results (w : Services) (s : AppState)
    (r : RouteDetails) :
  st_homeAddress s <> EmptyString -> st_workAddress s <> EmptyString ->
  getRouteDetails w (st_homeAddress s) (st_workAddress s) = Fulfilled r ->
  distance r = nan ->
  let s' := fst (handleRouteCalculation w s) in
  weekdayCommuteKm (st_userInput s') = nan /\
  ((forall k, k <> Key.weekdayCommuteKm -> inError (st_userInput s) k = false) ->
   snd (validateForm s') = true) /\
  ((0 <? estimatedAnnualKm (st_userInput s)) = false ->
   forall data,
     Forall (fun x => totalCost x = nan /\ amortizationYears x = None)
            (sortedResults (st_userInput s') (st_routePreset s') data)).
Proof.
  intros Hh Hw Hr Hd s'.
  assert (Hu : st_userInput s' = set_weekdayCommuteKm nan (st_userInput s)).
  { unfold s'. rewrite (handleRouteCalculation_nonempty w s Hh Hw), Hr, Hd.
    simpl.
    destruct (70 <=? cityPercentage r); [|destruct (cityPercentage r <=? 30)];
      reflexivity. }
  rewrite Hu. split; [reflexivity|]. split.
  - intros Hok. apply validateForm_accepts. rewrite Hu. intros k.
    destruct (Key.eqb k Key.weekdayCommuteKm) eqn:E.
    + apply Key_eqb_eq in E. subst k. apply ltb_nan_l.
    + assert (Hk : k <> Key.weekdayCommuteKm).
      { intros ->. discriminate E. }
      rewrite <- (Hok k Hk). destruct k; try reflexivity. contradiction.
  - intros He data. apply Forall_forall. intros x Hx.
    set (u' := set_weekdayCommuteKm nan (st_userInput s)) in *.
    destruct (annualDistances_nan_commute u' (st_routePreset s') eq_refl He)
      as [Hc Hhw].
    assert (Hcalc : forall car,
              totalCost (calculateCar u' (annualDistances u' (st_routePreset s')) car) = nan /\
              annualFuelCost (calculateCar u' (annualDistances u' (st_routePreset s')) car) = nan).
    { intros car. unfold calculateCar. simpl.
      rewrite (carAnnualFuelCost_nan u' _ car Hc Hhw), mul_nan_l, add_nan_r.
      split; reflexivity. }
    destruct (In_sortedResults _ _ _ _ Hx) as [car [_ H]]. simpl in H.
    destruct (gasolineCar _) as [g|]; subst x.
    + rewrite amortize_totalCost. split; [apply Hcalc|].
      rewrite amortize_amortizationYears by reflexivity.
      rewrite (proj2 (Hcalc car)), sub_nan_r, ltb_nan_r, andb_false_r.
      reflexivity.
    + split; [apply Hcalc | reflexivity].
Qed.

Lemma X7_nan_distance_poisons_results_witness :
  let w := mkServices (Fulfilled sampleConsumptionData)
             (fun _ _ => Fulfilled (mkRouteDetails nan 50)) in
  let s := mkAppState initialUserInput None None false None [] false mixed
             "Calle Mayor 1, Madrid" "Gran Via 2, Madrid" in
  snd (validateForm (fst (handleRouteCalculation w s))) = true /\
  map totalCost
    (sortedResults (st_userInput (fst (handleRouteCalculation w s)))
       (st_routePreset (fst (handleRouteCalculation w s))) [gasolineRecord])
  = [nan].
Proof.
  intros w s.
  assert (Hh : st_homeAddress s <> EmptyString) by discriminate.
  assert (Hw : st_workAddress s <> EmptyString) by discriminate.
  destruct (X7_nan_distance_poisons_results w s (mkRouteDetails nan 50)
              Hh Hw eq_refl eq_refl) as [_ [Hv Hres]].
  split.
  - apply Hv. intros k _. destruct k; reflexivity.
  - specialize (Hres eq_refl [gasolineRecord]).
    destruct (sortedResults _ _ [gasolineRecord]) as [|x [|y l]] eqn:E;
      try (vm_compute in E; discriminate E).
    inversion Hres as [|x0 l0 [Hx _] _]; subst. simpl. rewrite Hx. reflexivity.
Defined.

(** ** Submission: a failed fetch, and what the ranking keeps *)

(** X8: when the form is accepted and the consumption service fails,
    the results and the recommendation shown before are cleared, the
    loading flag is down, the form is untouched, and the error is the
    failure's message, or the fixed text for a thrown value that is not
    an Error. *)
Theorem X8_failed_fetch_clears_results (w : Services) (s : AppState)
    (err : Thrown) :
  snd (validateForm s) = true ->
  getFuelConsumptionData w = Rejected err ->
  let s' := fst (handleSubmit w s) in
  st_results s' = None /\
  st_recommendation s' = None /\
  st_isLoading s' = false /\
  st_userInput s' = st_userInput s /\
  st_routePreset s' = st_routePreset s /\
  st_error s'
  = Some match err with
         | ErrorObject message => message
         | OtherValue => "Ocurrió un error inesperado."%string
         end.
Proof.
  intros Hv Hw s'. unfold s', handleSubmit.
  unfold validateForm in *. simpl in Hv. rewrite Hv. simpl. rewrite Hw. simpl.
  destruct err; repeat split; reflexivity.
Qed.

Lemma X8_failed_fetch_clears_results_witness :
  let w := mkServices (Rejected OtherValue) (fun _ _ => Rejected OtherValue) in
  let s := setResults (Some []) initialState in
  st_results (fst (handleSubmit w s)) = None /\
  st_error (fst (handleSubmit w s)) = Some "Ocurrió un error inesperado."%string.
Proof.
  intros w s.
  destruct (X8_failed_fetch_clears_results w s OtherValue eq_refl eq_refl)
    as [Hr [_ [_ [_ [_ He]]]]].
  split; [exact Hr | exact He].
Defined.

Lemma map_name_amortizedResults (rs : list CalculationResult) :
  map name (amortizedResults rs) = map name rs.
Proof.
  unfold amortizedResults. destruct (gasolineCar rs) as [g|]; [|reflexivity].
  rewrite map_map. apply map_ext. intros r. apply amortize_name.
Qed.

(** X9: the ranking holds exactly one result per consumption record:
    the names of the results are the display names of the records,
    rearranged, so no record is dropped, repeated or invented. *)
Theorem X9_one_result_per_record (u : UserInput) (p : RoutePreset)
    (data : list FuelConsumptionData) :
  Permutation (map type data) (map name (sortedResults u p data)) /\
  List.length (sortedResults u p data) = List.length data.
Proof.
  assert (H : Permutation (map type data) (map name (sortedResults u p data))).
  { unfold sortedResults.
    apply perm_trans
      with (map name (amortizedResults (calculatedResults u p data))).
    - rewrite map_name_amortizedResults. unfold calculatedResults.
      rewrite map_map. apply Permutation_refl.
    - apply Permutation_map, sort_perm. }
  split; [exact H|].
  apply Permutation_length in H. rewrite !length_map in H. symmetry. exact H.
Qed.

(** X10: every result of a submission carries the same annual distance:
    the explicit total when one is given, the sum of the derived city
    and highway distances otherwise. It does not depend on which result
    ranks first. *)
Theorem X10_results_share_annual_distance (u : UserInput) (p : RoutePreset)
    (data : list FuelConsumptionData) :
  Forall (fun r =>
            annualKm r
            = if 0 <? estimatedAnnualKm u then estimatedAnnualKm u
              else annualCityKm (annualDistances u p)
                   + annualHighwayKm (annualDistances u p))
         (sortedResults u p data).
Proof.
  apply Forall_forall. intros r Hr.
  destruct (In_sortedResults u p data r Hr) as [car [_ H]]. simpl in H.
  assert (E : annualKm r = ad_annualKm (annualDistances u p)).
  { destruct (gasolineCar _) as [g|]; subst r;
      rewrite ?amortize_annualKm; reflexivity. }
  rewrite E. unfold annualDistances.
  destruct (0 <? estimatedAnnualKm u); reflexivity.
Qed.

(** X11: sorting a list that is already in non-decreasing order of
    total cost leaves it as it is. *)
Theorem X11_sort_keeps_a_sorted_list (l : list CalculationResult) :
  sortedByTotalCost l = true -> sort l = l.
Proof.
  induction l as [|x l IH]; intros Hs; [reflexivity|].
  rewrite sortedByTotalCost_cons in Hs. simpl.
  destruct l as [|y l']; [reflexivity|].
  apply andb_true_iff in Hs. destruct Hs as [Hxy Hs].
  rewrite (IH Hs). cbn [sort_insert].
  rewrite compareFn_pos, (leb_not_ltb _ _ Hxy). reflexivity.
Qed.

Lemma X11_sort_keeps_a_sorted_list_witness :
  let ranked := sortedResults initialUserInput mixed
                  [gasolineRecord; dieselRecord; lpgRecord; phevRecord] in
  sort ranked = ranked.
Proof.
  intros ranked. apply (X11_sort_keeps_a_sorted_list ranked).
  vm_compute. reflexivity.
Defined.

(** ** The option the recommendation names as cheapest *)

Section BestOption.

Lemma bestOption_cons (first : CalculationResult) (rest : list CalculationResult) :
  bestOption (first :: rest) = Some (fold_left pick rest first).
Proof. reflexivity. Qed.

Lemma fold_pick_In (rest : list CalculationResult) :
  forall first, fold_left pick rest first = first \/
                In (fold_left pick rest first) rest.
Proof.
  induction rest as [|c rest IH]; intros first; simpl; [left; reflexivity|].
  destruct (IH (pick first c)) as [H|H]; [|right; right; exact H].
  rewrite H. unfold pick. destruct (totalCost first <? totalCost c); auto.
Qed.

Lemma fold_pick_min (rest : list CalculationResult) :
  forall (acc : CalculationResult) (seen : list CalculationResult),
    totalCost acc <> nan ->
    Forall (fun r => totalCost r <> nan) rest ->
    Forall (fun r => (totalCost acc <=? totalCost r) = true) seen ->
    Forall (fun r => (totalCost (fold_left pick rest acc) <=? totalCost r) = true)
           (seen ++ rest).
Proof.
  induction rest as [|c rest IH]; intros acc seen Hacc Hrest Hseen; simpl.
  - rewrite app_nil_r. exact Hseen.
  - inversion Hrest as [|c0 l0 Hc Hrest']; subst.
    replace (seen ++ c :: rest) with ((seen ++ [c]) ++ rest)
      by (rewrite <- app_assoc; reflexivity).
    unfold pick at 2. destruct (totalCost acc <? totalCost c) eqn:E.
    + apply IH; [exact Hacc | exact Hrest' |].
      apply Forall_app. split; [exact Hseen|].
      constructor; [apply ltb_leb, E | constructor].
    + apply IH; [exact Hc | exact Hrest' |].
      assert (Hca : (totalCost c <=? totalCost acc) = true)
        by (apply not_ltb_leb; assumption).
      apply Forall_app. split.
      * apply Forall_forall. intros x Hx. rewrite Forall_forall in Hseen.
        apply leb_trans with (totalCost acc); [exact Hca | apply Hseen, Hx].
      * constructor; [apply leb_refl, Hc | constructor].
Qed.

(** X12: the reduction that finds the cheapest option fails on an empty
    list of results (no initial value is given) and otherwise names one
    of the results. *)
Theorem X12_best_option_is_a_result (results : list CalculationResult) :
  match bestOption results with
  | None => results = []
  | Some best => In best results
  end.
Proof.
  destruct results as [|first rest]; [reflexivity|].
  rewrite bestOption_cons.
  destruct (fold_pick_In rest first) as [H|H]; [left; symmetry|right]; exact H.
Qed.

(** X13: when no total cost is NaN, the option named as cheapest costs
    no more than any result. *)
Theorem X13_best_option_is_cheapest (results : list CalculationResult)
    (best : CalculationResult) :
  Forall (fun r => totalCost r <> nan) results ->
  bestOption results = Some best ->
  Forall (fun r => (totalCost best <=? totalCost r) = true) results.
Proof.
  intros Hn Hb. destruct results as [|first rest]; [discriminate Hb|].
  rewrite bestOption_cons in Hb. inversion Hb as [Hbest].
  inversion Hn as [|f0 l0 Hf Hrest]; subst f0 l0.
  apply (fold_pick_min rest first [first] Hf Hrest).
  constructor; [apply leb_refl, Hf | constructor].
Qed.

Lemma X13_best_option_is_cheapest_witness :
  let results := calculatedResults initialUserInput mixed
                   [gasolineRecord; dieselRecord; lpgRecord; phevRecord] in
  exists best, bestOption results = Some best /\ name best = GLP /\
    Forall (fun r => (totalCost best <=? totalCost r) = true) results.
Proof.
  intros results.
  exists (calculateCar initialUserInput
            (annualDistances initialUserInput mixed) lpgRecord).
  assert (Hb : bestOption results
               = Some (calculateCar initialUserInput
                         (annualDistances initialUserInput mixed) lpgRecord))
    by (vm_compute; reflexivity).
  split; [exact Hb|]. split; [reflexivity|].
  apply (X13_best_option_is_cheapest results _); [|exact Hb].
  repeat constructor; intros H; vm_compute in H; discriminate H.
Defined.

(** X14: a result whose total cost is NaN makes the reduction forget
    everything before it: if it comes last it is the option named, and
    otherwise the option named is chosen among the results after it. *)
Theorem X14_nan_total_hides_earlier_results (before : list CalculationResult)
    (r : CalculationResult) :
  totalCost r = nan ->
  bestOption (before ++ [r]) = Some r /\
  forall (next : CalculationResult) (after : list CalculationResult),
    bestOption (before ++ r :: next :: after) = bestOption (next :: after).
Proof.
  intros Hr.
  assert (Hstep : forall acc, pick acc r = r).
  { intros acc. unfold pick. rewrite Hr, ltb_nan_r. reflexivity. }
  assert (Hnext : forall c, pick r c = c).
  { intros c. unfold pick. rewrite Hr, ltb_nan_l. reflexivity. }
  destruct before as [|a before]; simpl app.
  - split; [reflexivity|]. intros next after.
    rewrite !bestOption_cons. simpl. rewrite Hnext. reflexivity.
  - split.
    + rewrite bestOption_cons, fold_left_app. simpl. rewrite Hstep. reflexivity.
    + intros next after.
      rewrite !bestOption_cons, fold_left_app. simpl.
      rewrite Hstep, Hnext. reflexivity.
Qed.

Lemma X14_nan_total_hides_earlier_results_witness :
  let d := annualDistances initialUserInput mixed in
  let lpg := calculateCar initialUserInput d lpgRecord in
  let hev := calculateCar initialUserInput d hybridRecord in
  let phv := calculateCar initialUserInput d phevRecord in
  bestOption [lpg; hev; phv] = Some phv /\
  (totalCost lpg <? totalCost phv) = true.
Proof.
  intros d lpg hev phv.
  destruct (X14_nan_total_hides_earlier_results [lpg] hev) as [_ H].
  - vm_compute. reflexivity.
  - split; [exact (H phv []) | vm_compute; reflexivity].
Defined.

End BestOption.

Lemma sorted_head_min (l : list CalculationResult) :
  forall a, Forall (fun r => totalCost r <> nan) (a :: l) ->
            sortedByTotalCost (a :: l) = true ->
            Forall (fun r => (totalCost a <=? totalCost r) = true) (a :: l).
Proof.
  induction l as [|b l IH]; intros a Hn Hs.
  - inversion Hn; subst. constructor; [apply leb_refl; assumption | constructor].
  - inversion Hn as [|a0 l0 Ha Hn']; subst.
    rewrite sortedByTotalCost_cons in Hs. apply andb_true_iff in Hs.
    destruct Hs as [Hab Hs].
    constructor; [apply leb_refl, Ha|].
    specialize (IH b Hn' Hs). apply Forall_forall. intros x Hx.
    rewrite Forall_forall in IH.
    apply leb_trans with (totalCost b); [exact Hab | apply IH, Hx].
Qed.

Lemma sortedResults_totals_not_nan (u : UserInput) (p : RoutePreset)
    (data : list FuelConsumptionData) :
  Forall (fun r => totalCost r <> nan) (calculatedResults u p data) ->
  Forall (fun r => totalCost r <> nan) (sortedResults u p data).
Proof.
  intros H. unfold sortedResults. apply Forall_sort. unfold amortizedResults.
  destruct (gasolineCar (calculatedResults u p data)) as [g|]; [|exact H].
  apply Forall_forall. intros r Hr. apply in_map_iff in Hr.
  destruct Hr as [r0 [<- Hr0]]. rewrite amortize_totalCost.
  rewrite Forall_forall in H. apply H, Hr0.
Qed.

(** X15: when no total cost is NaN, the option the recommendation names
    as cheapest and the first result of the ranking, the one shown as
    best, cost the same (each at most the other), though with equal
    totals they need not be the same car. *)
Theorem X15_recommendation_agrees_with_ranking (u : UserInput)
    (p : RoutePreset) (data : list FuelConsumptionData)
    (best first : CalculationResult) :
  Forall (fun r => totalCost r <> nan) (calculatedResults u p data) ->
  bestOption (sortedResults u p data) = Some best ->
  hd_error (sortedResults u p data) = Some first ->
  (totalCost best <=? totalCost first) = true /\
  (totalCost first <=? totalCost best) = true.
Proof.
  intros Hn Hb Hf.
  pose proof (sortedResults_totals_not_nan u p data Hn) as Hn'.
  pose proof (sortedResults_sorted u p data Hn) as Hs.
  destruct (sortedResults u p data) as [|a l] eqn:E; [discriminate Hf|].
  simpl in Hf. inversion Hf; subst a.
  assert (Hbin : In best (first :: l)).
  { destruct (fold_pick_In l first) as [H|H];
      rewrite bestOption_cons in Hb; inversion Hb as [Hbest];
      [left; symmetry; exact H | right; exact H]. }
  split.
  - inversion Hn' as [|f0 l0 Hfn Hrest]; subst f0 l0.
    rewrite bestOption_cons in Hb. inversion Hb as [Hbest].
    pose proof (fold_pick_min l first [first] Hfn Hrest) as Hmin.
    assert (Hseen : Forall (fun r => (totalCost first <=? totalCost r) = true) [first])
      by (constructor; [apply leb_refl, Hfn | constructor]).
    specialize (Hmin Hseen). rewrite Forall_forall in Hmin.
    apply Hmin. left. reflexivity.
  - pose proof (sorted_head_min l first Hn' Hs) as Hmin.
    rewrite Forall_forall in Hmin. apply Hmin, Hbin.
Qed.

Lemma X15_recommendation_agrees_with_ranking_witness :
  let data := [gasolineRecord; dieselRecord; lpgRecord; phevRecord] in
  let lpg := amortize
               (calculateCar initialUserInput
                  (annualDistances initialUserInput mixed) gasolineRecord)
               (calculateCar initialUserInput
                  (annualDistances initialUserInput mixed) lpgRecord) in
  bestOption (sortedResults initialUserInput mixed data) = Some lpg /\
  (totalCost lpg <=? totalCost lpg) = true.
Proof.
  intros data lpg.
  assert (Hb : bestOption (sortedResults initialUserInput mixed data) = Some lpg)
    by (vm_compute; reflexivity).
  split; [exact Hb|].
  apply (X15_recommendation_agrees_with_ranking initialUserInput mixed data
           lpg lpg); [| exact Hb | vm_compute; reflexivity].
  repeat constructor; intros H; vm_compute in H; discriminate H.
Defined.

(** ** The preset table *)

(** X16: in every route preset the city and highway fractions add up to
    exactly 1 in binary64, and each lies between 0 and 1. *)
Theorem X16_preset_fractions_sum_to_one (p : RoutePreset) :
  preset_city (presetConfig p) + preset_highway (presetConfig p) = 1 /\
  (0 <=? preset_city (presetConfig p)) = true /\
  (preset_city (presetConfig p) <=? 1) = true /\
  (0 <=? preset_highway (presetConfig p)) = true /\
  (preset_highway (presetConfig p) <=? 1) = true.
Proof. destruct p; vm_compute; repeat split. Qed.
